(** * ollama_pdf_rag: the Streamlit RAG playground (streamlit_app.py)

    A shallow embedding of [streamlit_app.py].  A script run of [main] is a
    computation over a [World]: the Streamlit session state (a Python dict),
    the collections held by the Chroma client, the elements rendered on the
    page, and the requests sent to the external services.  The services
    themselves (Ollama, the embedding model, the vector store, the directory
    on disk) are oracles collected in [Env]; a request to any of them may
    fail.

    Calls to [logger] and [print] only write to the process log and are left
    out. *)

From Stdlib Require Import Ascii.
From stdpp Require Import base strings list gmap.

(** ** Data *)

(** [langchain_core.documents.Document] *)
Record Document := mkDocument {
  page_content : string;
  metadata : gmap string string
}.

(** An entry of [st.session_state["messages"]]:
    [{"role": ..., "content": ...}] *)
Record ChatMessage := mkChatMessage {
  role : string;
  content : string
}.

(** The handle returned by [Chroma.from_documents]. *)
Record Chroma := mkChroma {
  collection_name : string;
  embedding : string
}.

(** Values stored in [st.session_state]. *)
Inductive value :=
| VNone
| VBool (b : bool)
| VList (l : list ChatMessage)
| VChroma (db : Chroma).

(** Streamlit distinguishes its own control-flow exception, which derives from
    [BaseException], from ordinary ones: [except Exception] lets the first
    through. *)
Inductive exn :=
| RerunException
| Exception (msg : string).

Inductive result (A : Type) :=
| Ok (a : A)
| Raise (e : exn).
Arguments Ok {A} a.
Arguments Raise {A} e.

(** Elements written to the page during a script run. *)
Inductive element :=
| subheader (body : string)
| markdown (body : string)
| chat_message (name avatar : string)
| success (body : string)
| error (body : string)
| warning (body : string).

(** Requests that leave the process. *)
Inductive call :=
| similarity_search (db : Chroma) (query : string) (k : nat)
| chat_generate (model prompt : string)
| from_documents (documents : list Document) (embedding collection : string)
| delete_collection_call (collection : string)
| directory_load (path glob : string).

Record World := mkWorld {
  session_state : gmap string value;
  collections : gmap string (list Document);
  page : list element;
  calls : list call
}.

(** What the outside supplies to a script run. *)
Record Env := mkEnv {
  (** [os.listdir(korpora_path)] *)
  os_listdir : string + list string;
  (** [ollama.list()] *)
  ollama_list : string + gmap string (list (gmap string string));
  (** the regular files directly under a directory, name and bytes *)
  directory : string -> string + list (string * string);
  (** the text [UnstructuredMarkdownLoader] extracts from a file *)
  unstructured_text : string -> string;
  (** embedding the chunks of a build: [Some msg] when the service fails *)
  embed_error : string -> list Document -> option string;
  (** dropping a collection: [Some msg] when the store fails *)
  delete_error : string -> option string;
  (** the collection ordered by similarity to the query, best first *)
  rank : string -> string -> list Document -> string + list Document;
  (** [ChatOllama(model).invoke(prompt)] followed by [StrOutputParser] *)
  chat : string -> string -> string + string;
  (** how the prompt template prints the retrieved documents *)
  format_context : list Document -> string
}.

(** The widgets' values in one script run. *)
Record Inputs := mkInputs {
  model_select : string;
  korpus_select : string;
  embedding_select : string;
  delete_button : bool;
  chat_input : option string
}.

(** ** The script monad *)

Definition M (A : Type) : Type := World -> result A * World.

Definition ret {A} (a : A) : M A := fun w => (Ok a, w).

Definition bind {A B} (m : M A) (k : A -> M B) : M B :=
  fun w => match m w with
           | (Ok a, w') => k a w'
           | (Raise e, w') => (Raise e, w')
           end.

Definition raise {A} (e : exn) : M A := fun w => (Raise e, w).

(** [try: body  except Exception as e: handler e] *)
Definition try_except {A} (body : M A) (handler : string -> M A) : M A :=
  fun w => match body w with
           | (Raise (Exception msg), w') => handler msg w'
           | r => r
           end.

Notation "x <- m ;; k" := (bind m (fun x => k))
  (at level 100, m at next level, right associativity).
Notation "m ;; k" := (bind m (fun _ => k))
  (at level 100, right associativity).

Definition when (b : bool) (m : M unit) : M unit := if b then m else ret tt.

Fixpoint for_each {A} (xs : list A) (body : A -> M unit) : M unit :=
  match xs with
  | [] => ret tt
  | x :: xs' => body x ;; for_each xs' body
  end.

(** ** Streamlit and the services *)

Definition set_session_state (f : gmap string value -> gmap string value) (w : World) : World :=
  mkWorld (f (session_state w)) (collections w) (page w) (calls w).

Definition set_collections (f : gmap string (list Document) -> gmap string (list Document))
    (w : World) : World :=
  mkWorld (session_state w) (f (collections w)) (page w) (calls w).

(** Reading and changing what the Chroma client holds. *)
Definition collections_get : M (gmap string (list Document)) :=
  fun w => (Ok (collections w), w).

Definition collections_update
    (f : gmap string (list Document) -> gmap string (list Document)) : M unit :=
  fun w => (Ok tt, set_collections f w).

Definition st_write (e : element) : M unit :=
  fun w => (Ok tt, mkWorld (session_state w) (collections w) (page w ++ [e]) (calls w)).

Definition issue (c : call) : M unit :=
  fun w => (Ok tt, mkWorld (session_state w) (collections w) (page w) (calls w ++ [c])).

(** [key in st.session_state] *)
Definition ss_contains (key : string) : M bool :=
  fun w => (Ok (bool_decide (is_Some (session_state w !! key))), w).

(** [st.session_state[key]] *)
Definition ss_get (key : string) : M value :=
  fun w => match session_state w !! key with
           | Some v => (Ok v, w)
           | None => (Raise (Exception ("KeyError: " +:+ key)), w)
           end.

(** [st.session_state[key] = v] *)
Definition ss_set (key : string) (v : value) : M unit :=
  fun w => (Ok tt, set_session_state (insert key v) w).

(** [st.session_state.pop(key, None)] *)
Definition ss_pop (key : string) : M unit :=
  fun w => (Ok tt, set_session_state (delete key) w).

(** [if key not in st.session_state: st.session_state[key] = v] *)
Definition ss_setdefault (key : string) (v : value) : M unit :=
  has <- ss_contains key ;;
  when (negb has) (ss_set key v).

(** [st.rerun()] *)
Definition st_rerun {A} : M A := raise RerunException.

(** [st.selectbox(label, options)]: the option the user picked, the first
    one when the pick is not on offer. *)
Definition selectbox (options : list string) (picked : string) : string :=
  if bool_decide (picked ∈ options) then picked else default "" (head options).

Definition is_none (v : value) : bool :=
  match v with VNone => true | _ => false end.

Fixpoint mapM {A B} (f : A -> result B) (xs : list A) : result (list B) :=
  match xs with
  | [] => Ok []
  | x :: xs' =>
      match f x with
      | Ok y => match mapM f xs' with
                | Ok ys => Ok (y :: ys)
                | Raise e => Raise e
                end
      | Raise e => Raise e
      end
  end.

Definition lift {A} (r : result A) : M A := fun w => (r, w).

Definition of_sum {A} (r : string + A) : result A :=
  match r with
  | inl msg => Raise (Exception msg)
  | inr a => Ok a
  end.

(** ** Text utilities *)

Definition newline : ascii := "010"%char.

(** [s.split("\n")] *)
Fixpoint split_lines (s : string) : list string :=
  match s with
  | EmptyString => [EmptyString]
  | String c s' =>
      if Ascii.eqb c newline then EmptyString :: split_lines s'
      else match split_lines s' with
           | l :: ls => String c l :: ls
           | [] => [String c EmptyString]
           end
  end.

(** ["\n".join(lines)] *)
Fixpoint join_lines (lines : list string) : string :=
  match lines with
  | [] => EmptyString
  | [l] => l
  | l :: ls => l +:+ String newline (join_lines ls)
  end.

Fixpoint count_hashes (s : string) : nat * string :=
  match s with
  | String c s' =>
      if Ascii.eqb c "#"%char
      then let '(n, r) := count_hashes s' in (S n, r)
      else (0, s)
  | EmptyString => (0, s)
  end.

Fixpoint hashes (n : nat) : string :=
  match n with
  | 0 => EmptyString
  | S n' => String "#"%char (hashes n')
  end.

Fixpoint lstrip (s : string) : string :=
  match s with
  | String c s' => if Ascii.eqb c " "%char then lstrip s' else s
  | EmptyString => s
  end.

Fixpoint rstrip (s : string) : string :=
  match s with
  | String c s' =>
      match rstrip s' with
      | EmptyString => if Ascii.eqb c " "%char then EmptyString else String c EmptyString
      | r => String c r
      end
  | EmptyString => s
  end.

Definition strip (s : string) : string := rstrip (lstrip s).

(** [template.format(context=..., question=...)]: every [{name}] is replaced by the text
    bound to [name]. *)
Fixpoint format_from (bindings : list (string * string)) (s : string)
    (field : option string) : string :=
  match s with
  | EmptyString =>
      match field with
      | None => EmptyString
      | Some name => String "{"%char name
      end
  | String c s' =>
      match field with
      | None =>
          if Ascii.eqb c "{"%char then format_from bindings s' (Some EmptyString)
          else String c (format_from bindings s' None)
      | Some name =>
          if Ascii.eqb c "}"%char
          then default EmptyString (snd <$> find (fun b => String.eqb (fst b) name) bindings)
                 +:+ format_from bindings s' None
          else format_from bindings s' (Some (name +:+ String c EmptyString))
      end
  end.

Definition format (template : string) (bindings : list (string * string)) : string :=
  format_from bindings template None.

(** [pathlib]'s matching of one path component against a pattern in which
    [*] stands for any run of characters. *)
Fixpoint fnmatch (pattern name : string) : bool :=
  match pattern with
  | EmptyString => match name with EmptyString => true | _ => false end
  | String p pattern' =>
      if Ascii.eqb p "*"%char
      then (fix any (name : string) : bool :=
              fnmatch pattern' name ||
              match name with
              | EmptyString => false
              | String _ name' => any name'
              end) name
      else match name with
           | String c name' => Ascii.eqb p c && fnmatch pattern' name'
           | EmptyString => false
           end
  end.

(** [Path(path).glob(pattern)] on the names directly under [path]; a leading
    [./] of the pattern is dropped. *)
Definition glob_match (pattern name : string) : bool :=
  match pattern with
  | String "."%char (String "/"%char pattern') => fnmatch pattern' name
  | _ => fnmatch pattern name
  end.

(** [DirectoryLoader] skips files whose name starts with a dot. *)
Definition is_visible (name : string) : bool :=
  match name with
  | String "."%char _ => false
  | _ => true
  end.

(** ** langchain's header splitter *)

Module MarkdownHeaderTextSplitter.

(** Modelled from the spec: [MarkdownHeaderTextSplitter.split_text] is
    langchain's and is not among this repository's sources.  Section 4.3 of
    the specification: the content is split at the lines beginning with 1-4
    [#] characters, each of them starting a new section; the chunk of a
    section carries, for each level, the text of the nearest enclosing
    header under that level's key; the content preceding the first header
    is a chunk without header metadata; a document without headers is one
    chunk equal to its whole content.  The header line itself is not part
    of the chunk (scenario of section 8). *)
Definition header_of (headers_to_split_on : list (string * string)) (line : string)
    : option (nat * string * string) :=
  let '(n, rest) := count_hashes line in
  match find (fun h => String.eqb (fst h) (hashes n)) headers_to_split_on with
  | Some (_, name) => Some (n, name, strip rest)
  | None => None
  end.

(** Modelled from the spec: the metadata below a header of [level]; the
    headers of deeper levels no longer enclose what follows. *)
Definition enter (headers_to_split_on : list (string * string)) (level : nat)
    (name text : string) (meta : gmap string string) : gmap string string :=
  <[name := text]>
    (foldr (fun h m => if Nat.ltb level (String.length (fst h)) then delete (snd h) m else m)
           meta headers_to_split_on).

(** Modelled from the spec: the sections of the remaining [lines], [body]
    being the lines of the section that is open and [meta] its headers. *)
Fixpoint sections (headers_to_split_on : list (string * string))
    (meta : gmap string string) (body lines : list string) : list Document :=
  match lines with
  | [] => [mkDocument (join_lines body) meta]
  | line :: rest =>
      match header_of headers_to_split_on line with
      | Some (level, name, text) =>
          mkDocument (join_lines body) meta
          :: sections headers_to_split_on
               (enter headers_to_split_on level name text meta) [] rest
      | None => sections headers_to_split_on meta (body ++ [line]) rest
      end
  end.

(** Modelled from the spec: [split_text], see [header_of]. *)
Definition split_text (headers_to_split_on : list (string * string)) (text : string)
    : list Document :=
  match split_lines text with
  | [] => []
  | line :: rest =>
      match header_of headers_to_split_on line with
      | Some (level, name, header) =>
          sections headers_to_split_on
            (enter headers_to_split_on level name header ∅) [] rest
      | None => sections headers_to_split_on ∅ [line] rest
      end
  end.

End MarkdownHeaderTextSplitter.

(** ** The application *)

(** [headers_to_split_on] of [split_documents], line 200 *)
Definition headers_to_split_on : list (string * string) :=
  [("#", "Header 1"); ("##", "Header 2"); ("###", "Header 3"); ("####", "Header 4")].

(** [split_documents], lines 199-206 *)
Definition split_documents (docs : list Document) : list Document :=
  let text_splitter := MarkdownHeaderTextSplitter.split_text headers_to_split_on in
  foldl (fun all_sections doc => all_sections ++ text_splitter (page_content doc)) [] docs.

(** [extract_model_names], lines 64-79; the cache decorator does not change
    what it returns. *)
Definition extract_model_names (models_info : gmap string (list (gmap string string)))
    : result (list string) :=
  match models_info !! "models" with
  | None => Raise (Exception "KeyError: models")
  | Some models =>
      mapM (fun model => match model !! "name" with
                         | Some name => Ok name
                         | None => Raise (Exception "KeyError: name")
                         end) models
  end.

(** [inspect], lines 81-85 *)
Definition inspect {A} (state : A) : A := state.

(** LangChain runnables: [r.invoke(a)] *)
Definition Runnable (A B : Type) : Type := A -> M B.

(** [r1 | r2] *)
Definition pipe {A B C} (r1 : Runnable A B) (r2 : Runnable B C) : Runnable A C :=
  fun a => b <- r1 a ;; r2 b.
Infix "|>" := pipe (at level 50, left associativity).

Definition RunnablePassthrough {A} : Runnable A A := ret.

Definition RunnableLambda {A B} (f : A -> B) : Runnable A B := fun a => ret (f a).

(** [{"context": r1, "question": r2}] *)
Definition RunnableParallel {A B C} (context : Runnable A B) (question : Runnable A C)
    : Runnable A (B * C) :=
  fun a => c <- context a ;; q <- question a ;; ret (c, q).

Definition StrOutputParser : Runnable string string := ret.

(** [vector_db.as_retriever(search_type=..., search_kwargs={"k": ...})] *)
Record VectorStoreRetriever := mkRetriever {
  vectorstore : Chroma;
  search_type : string;
  search_k : nat
}.

Definition unbound {A} (name : string) : M A :=
  raise (Exception ("UnboundLocalError: " +:+ name)).

(** Reading a local that is assigned on some paths only. *)
Definition local {A} (name : string) (v : option A) : M A :=
  match v with
  | Some a => ret a
  | None => unbound name
  end.

Definition korpora_path : string := "/data/ub-llm/korpora/".

(** [template] of [process_question], lines 151-154 *)
Definition template : string :=
  "Du bist eine künstliche Intelligenz, die in der Universitätsbibliothek (UB) der Technischen Universität Braunscheig (TUBS) arbeitet. Vor diesem Hintergrund, beantworten Sie die Frage NUR auf der Grundlage des folgenden Kontextes:
    {context}
    Question: {question}
    ".

Section App.

Variable env : Env.

(** [Chroma.from_documents(documents, embedding=OllamaEmbeddings(model),
    collection_name=name)]: the collection is fetched or created, then the
    documents are embedded and added. *)
Definition Chroma_from_documents (documents : list Document) (model name : string)
    : M Chroma :=
  issue (from_documents documents model name) ;;
  collections_update (fun cs => <[name := default [] (cs !! name)]> cs) ;;
  match embed_error env model documents with
  | Some msg => raise (Exception msg)
  | None =>
      collections_update (fun cs => <[name := default [] (cs !! name) ++ documents]> cs) ;;
      ret (mkChroma name model)
  end.

(** [vector_db.delete_collection()] *)
Definition delete_collection (vector_db : Chroma) : M unit :=
  issue (delete_collection_call (collection_name vector_db)) ;;
  match delete_error env (collection_name vector_db) with
  | Some msg => raise (Exception msg)
  | None => collections_update (delete (collection_name vector_db))
  end.

(** [retriever.invoke(query)] *)
Definition retriever_invoke (retriever : VectorStoreRetriever) : Runnable string (list Document) :=
  fun query =>
    let db := vectorstore retriever in
    issue (similarity_search db query (search_k retriever)) ;;
    cs <- collections_get ;;
    ranked <- lift (of_sum (rank env (embedding db) query
                                 (default [] (cs !! collection_name db)))) ;;
    ret (take (search_k retriever) ranked).

(** [ChatOllama(model=...)] as a runnable *)
Definition ChatOllama (model : string) : Runnable string string :=
  fun prompt =>
    issue (chat_generate model prompt) ;;
    lift (of_sum (chat env model prompt)).

(** [ChatPromptTemplate.from_template(template)] as a runnable *)
Definition ChatPromptTemplate_from_template (template : string)
    : Runnable (list Document * string) string :=
  fun state =>
    ret (format template [("context", format_context env (fst state));
                          ("question", snd state)]).

(** [UnstructuredMarkdownLoader(file_path).load()] on a file's bytes *)
Definition UnstructuredMarkdownLoader (file_path bytes : string) : list Document :=
  [mkDocument (unstructured_text env bytes) {[ "source" := file_path ]}].

(** [DirectoryLoader(path, glob=..., loader_cls=...).load()]: the documents of
    the visible files directly under [path] whose name matches [glob], the
    empty list when there is none. *)
Definition DirectoryLoader_load (path glob : string)
    (loader_cls : string -> string -> list Document) : M (list Document) :=
  issue (directory_load path glob) ;;
  entries <- lift (of_sum (directory env path)) ;;
  let items := filter (fun entry => glob_match glob (fst entry) = true) entries in
  ret (concat (map (fun item =>
                      if is_visible (fst item)
                      then loader_cls (path +:+ "/" +:+ fst item) (snd item)
                      else []) items)).

(** [process_question], lines 88-170 *)
Definition process_question (question : string) (vector_db : Chroma)
    (selected_model : string) : M string :=
  let llm := ChatOllama selected_model in
  let QUERY_PROMPT :=
    "You are an AI language model assistant. Your task is to generate 2
        different versions of the given user question to retrieve relevant documents from
        a vector database. By generating multiple perspectives on the user question, your
        goal is to help the user overcome some of the limitations of the distance-based
        similarity search. Provide these alternative questions separated by newlines.
        Original question: {question}" in
  let QUERY_PROMPT :=
    "Sie sind ein KI-Sprachmodell-Assistent. Sie antworten immer auf Detsch.Ihre Aufgabe ist es, 2 verschiedene
        verschiedene Versionen der gegebenen Benutzerfrage zu generieren, um relevante Dokumente aus
        einer Vektordatenbank zu finden. Indem Sie mehrere Perspektiven auf die Benutzerfrage generieren, wollen Sie
        Ziel ist es, dem Benutzer zu helfen, einige der Einschränkungen der entfernungsbasierten
        Ähnlichkeitssuche zu überwinden. Geben Sie diese alternativen Fragen durch Zeilenumbrüche getrennt ein.
        Ursprüngliche Frage: {question}" in
  let retriever := mkRetriever vector_db "similarity" 3 in
  let prompt := ChatPromptTemplate_from_template template in
  let chain :=
    RunnableParallel (retriever_invoke retriever) RunnablePassthrough
    |> RunnableLambda inspect
    |> prompt
    |> llm
    |> StrOutputParser in
  response <- chain question ;;
  ret response.

(** [delete_vector_db], lines 173-191 *)
Definition delete_vector_db (vector_db : value) : M unit :=
  match vector_db with
  | VNone => st_write (error "No vector database found to delete.")
  | VChroma db =>
      delete_collection db ;;
      ss_pop "pdf_pages" ;;
      ss_pop "file_upload" ;;
      ss_pop "vector_db" ;;
      st_write (success "Collection and temporary files deleted successfully.") ;;
      st_rerun
  | _ => raise (Exception "AttributeError: delete_collection")
  end.

(** [load_documents], lines 195-197 *)
Definition load_documents (path : string) : M (list Document) :=
  DirectoryLoader_load path "./*.md" UnstructuredMarkdownLoader.

(** [st.session_state["messages"].append(message)] *)
Definition messages_append (message : ChatMessage) : M unit :=
  messages <- ss_get "messages" ;;
  match messages with
  | VList l => ss_set "messages" (VList (l ++ [message]))
  | _ => raise (Exception "AttributeError: append")
  end.

Definition nonempty {A} (l : list A) : bool :=
  match l with [] => false | _ => true end.

(** [main], lines 259-277: the index is built when the session has none. *)
Definition main_build (selected_korpus selected_embedding_model : option string) : M unit :=
  vector_db <- ss_get "vector_db" ;;
  when (is_none vector_db)
    (selected_korpus <- local "selected_korpus" selected_korpus ;;
     let selected_korpus := korpora_path +:+ selected_korpus in
     docs <- load_documents selected_korpus ;;
     if nonempty docs then
       vector_db <- ss_get "vector_db" ;;
       when (is_none vector_db)
         (let chunks := split_documents docs in
          selected_embedding_model <-
            local "selected_embedding_model" selected_embedding_model ;;
          db <- Chroma_from_documents chunks selected_embedding_model "myRAG" ;;
          ss_set "vector_db" (VChroma db))
     else st_write (error "No website data found.")).

(** [main], lines 283-291: the reload button *)
Definition main_delete (delete_collection : bool) : M unit :=
  when delete_collection
    (vector_db <- ss_get "vector_db" ;;
     delete_vector_db vector_db).

(** [main], lines 297-301: the chat history *)
Definition main_history : M unit :=
  messages <- ss_get "messages" ;;
  match messages with
  | VList l =>
      for_each l (fun message =>
        let avatar := if String.eqb (role message) "assistant" then "🤖" else "😎" in
        st_write (chat_message (role message) avatar) ;;
        st_write (markdown (content message)))
  | _ => raise (Exception "TypeError: enumerate")
  end.

(** [main], lines 304-333: one chat turn *)
Definition main_chat (prompt : option string) (selected_model : option string) : M unit :=
  match prompt with
  | Some (String _ _ as prompt) =>
      try_except
        (messages_append (mkChatMessage "user" prompt) ;;
         st_write (chat_message "user" "😎") ;;
         st_write (markdown prompt) ;;
         st_write (chat_message "assistant" "🤖") ;;
         vector_db <- ss_get "vector_db" ;;
         response <-
           match vector_db with
           | VNone =>
               st_write (warning "Please upload a PDF file first.") ;;
               ret None
           | VChroma db =>
               selected_model <- local "selected_model" selected_model ;;
               response <- process_question prompt db selected_model ;;
               st_write (markdown response) ;;
               ret (Some response)
           | _ => raise (Exception "AttributeError: as_retriever")
           end ;;
         vector_db <- ss_get "vector_db" ;;
         when (negb (is_none vector_db))
           (response <- local "response" response ;;
            messages_append (mkChatMessage "assistant" response)))
        (fun e => st_write (error e))
  | _ =>
      vector_db <- ss_get "vector_db" ;;
      when (is_none vector_db)
        (st_write (warning "Upload a PDF file or use the sample PDF to begin chat..."))
  end.

(** [main], lines 208-333 *)
Definition main (inp : Inputs) : M unit :=
  st_write (subheader "🧠 Ollama UB RAG playground") ;;
  korpora_list <- lift (of_sum (os_listdir env)) ;;
  models_info <- lift (of_sum (ollama_list env)) ;;
  available_models <- lift (extract_model_names models_info) ;;
  ss_setdefault "messages" (VList []) ;;
  ss_setdefault "vector_db" VNone ;;
  ss_setdefault "use_sample" (VBool false) ;;
  let selected_model :=
    if nonempty available_models
    then Some (selectbox available_models (model_select inp)) else None in
  let selected_korpus :=
    if nonempty korpora_list
    then Some (selectbox korpora_list (korpus_select inp)) else None in
  let selected_embedding_model :=
    if nonempty available_models
    then Some (selectbox available_models (embedding_select inp)) else None in
  main_build selected_korpus selected_embedding_model ;;
  main_delete (delete_button inp) ;;
  main_history ;;
  main_chat (chat_input inp) selected_model.

(** What Streamlit does with a script run: the page is drawn afresh, and a
    rerun request starts the script once more with no widget triggered. *)
Definition new_page (w : World) : World :=
  mkWorld (session_state w) (collections w) [] (calls w).

Definition without_triggers (inp : Inputs) : Inputs :=
  mkInputs (model_select inp) (korpus_select inp) (embedding_select inp) false None.

Definition script_run (inp : Inputs) (w : World) : World :=
  match main inp (new_page w) with
  | (Raise RerunException, w') => snd (main (without_triggers inp) (new_page w'))
  | (_, w') => w'
  end.

End App.

(** * Vocabulary of the properties *)

(** ** Requests and turns *)

Definition is_similarity_search (c : call) : bool :=
  match c with similarity_search _ _ _ => true | _ => false end.

Definition is_chat_generate (c : call) : bool :=
  match c with chat_generate _ _ => true | _ => false end.

Definition is_from_documents (c : call) : bool :=
  match c with from_documents _ _ _ => true | _ => false end.

(** The requests sent while [m] runs from [w]. *)
Definition issued {A} (m : M A) (w : World) : list call :=
  drop (length (calls w)) (calls (snd (m w))).

Fixpoint count (p : call -> bool) (cs : list call) : nat :=
  match cs with
  | [] => 0
  | c :: cs' => (if p c then 1 else 0) + count p cs'
  end.

(** The prompt sent for [question] when the store ranks the collection as
    [ranked]. *)
Definition rag_prompt (env : Env) (ranked : list Document) (question : string) : string :=
  format template [("context", format_context env (take 3 ranked));
                   ("question", question)].

Definition retrieved (env : Env) (w : World) (db : Chroma) (question : string)
    : string + list Document :=
  rank env (embedding db) question
       (default [] (collections w !! collection_name db)).

Definition user_message (prompt : string) : ChatMessage := mkChatMessage "user" prompt.
Definition assistant_message (response : string) : ChatMessage :=
  mkChatMessage "assistant" response.

(** What the page shows of a turn before the answer arrives. *)
Definition turn_opening (prompt : string) : list element :=
  [chat_message "user" "😎"; markdown prompt; chat_message "assistant" "🤖"].

(** ** Triples and invariants of script runs *)

(** [triple P m Q E]: from a world in [P], [m] ends in [Q] when it returns
    and in [E] when it raises. *)
Definition triple {A} (P : World -> Prop) (m : M A) (Q E : World -> Prop) : Prop :=
  forall w, P w ->
    match m w with
    | (Ok _, w') => Q w'
    | (Raise _, w') => E w'
    end.

(** Assertions that do not look at the page. *)
Definition on (J : gmap string value -> gmap string (list Document) -> list call -> Prop)
    (w : World) : Prop :=
  J (session_state w) (collections w) (calls w).

(** [keeps J E m]: [m] preserves [J] on every path; where it raises, the
    weaker [E] is all that is asked. *)
Definition keeps {A} (J : gmap string value -> gmap string (list Document) -> list call -> Prop)
    (E : World -> Prop) (m : M A) : Prop :=
  (forall w, on J w -> E w) -> triple (on J) m (on J) E.

(** The keys [main] initialises, lines 225-230. *)
Definition session_defaults : list (string * value) :=
  [("messages", VList []); ("vector_db", VNone); ("use_sample", VBool false)].

(** The questions an invariant has to answer. *)
Definition keeps_messages
    (J : gmap string value -> gmap string (list Document) -> list call -> Prop) : Prop :=
  forall v ss cs c, J ss cs c -> J (<["messages" := v]> ss) cs c.

Definition keeps_call
    (J : gmap string value -> gmap string (list Document) -> list call -> Prop) (c : call) : Prop :=
  forall ss cs cl, J ss cs cl -> J ss cs (cl ++ [c]).

Definition keeps_pop
    (J : gmap string value -> gmap string (list Document) -> list call -> Prop) : Prop :=
  forall key ss cs c, J ss cs c -> J (delete key ss) cs c.

Definition keeps_drop
    (J : gmap string value -> gmap string (list Document) -> list call -> Prop) : Prop :=
  forall name ss cs c, J ss cs c -> J ss (delete name cs) c.

Definition keeps_fill
    (J : gmap string value -> gmap string (list Document) -> list call -> Prop) : Prop :=
  forall docs ss cs c, J ss cs c -> J ss (<["myRAG" := docs]> cs) c.

Definition keeps_handle
    (J : gmap string value -> gmap string (list Document) -> list call -> Prop) : Prop :=
  forall model ss cs c, J ss cs c -> J (<["vector_db" := VChroma (mkChroma "myRAG" model)]> ss) cs c.

Definition keeps_default
    (J : gmap string value -> gmap string (list Document) -> list call -> Prop) : Prop :=
  forall key v, (key, v) ∈ session_defaults ->
    forall ss cs c, J ss cs c -> ss !! key = None -> J (<[key := v]> ss) cs c.

(** ** Sessions and their index *)

(** A build request names the collection [name]; other requests are free. *)
Definition builds_in (name : string) (c : call) : Prop :=
  match c with
  | from_documents _ _ collection => collection = name
  | _ => True
  end.

(** The requests sent since [base] all satisfy [P]. *)
Definition sent_since (base : list call) (P : call -> Prop)
    (ss : gmap string value) (cs : gmap string (list Document)) (c : list call) : Prop :=
  exists new, c = base ++ new /\ Forall P new.

(** The handle of the session, if there is one, names the collection [name]. *)
Definition handle_names (name : string) (ss : gmap string value) : Prop :=
  forall db, ss !! "vector_db" = Some (VChroma db) -> collection_name db = name.

Definition not_build (c : call) : Prop := is_from_documents c = false.

(** The session holds the handle [db] and has sent no build request since
    [base]. *)
Definition live (db : Chroma) (base : list call)
    (ss : gmap string value) (cs : gmap string (list Document)) (c : list call) : Prop :=
  ss !! "vector_db" = Some (VChroma db) /\ sent_since base not_build ss cs c.

(** What is left of [live] when a script run ends early: the handle may be
    gone only if the reload button was pressed. *)
Definition live_unless_reload (inp : Inputs) (db : Chroma) (base : list call)
    (ss : gmap string value) (cs : gmap string (list Document)) (c : list call) : Prop :=
  sent_since base not_build ss cs c
  /\ (delete_button inp = false -> ss !! "vector_db" = Some (VChroma db)).

(** The store holds no collection but "myRAG". *)
Definition one_collection
    (ss : gmap string value) (cs : gmap string (list Document)) (c : list call) : Prop :=
  dom cs ⊆ {[ "myRAG" ]}.

(** The session before its first script run. *)
Definition fresh_session : World := mkWorld ∅ ∅ [] [].

(** A session: the script runs one after the other, each with the machine
    and the widget values of its time. *)
Definition lifetime (runs : list (Env * Inputs)) (w : World) : World :=
  foldl (fun w run => script_run (fst run) (snd run) w) w runs.

(** ** Header lines and header chains *)

(** The number of [#] characters a line begins with. *)
Definition header_level (line : string) : nat := fst (count_hashes line).

(** A header line begins with 1-4 [#] characters. *)
Definition is_header_line (line : string) : bool :=
  bool_decide (1 <= header_level line <= 4).

(** The metadata key of a header level, as [headers_to_split_on] gives it. *)
Definition header_key (level : nat) : string :=
  default "" (snd <$> find (fun h => String.eqb (fst h) (hashes level)) headers_to_split_on).

(** The headers of a document, level and text, in the order of the lines. *)
Definition headers_of (lines : list string) : list (nat * string) :=
  omap (fun line =>
          if is_header_line line
          then Some (header_level line, strip (snd (count_hashes line)))
          else None) lines.

(** The header of [level] that encloses what follows the headers [seen],
    the last one first: the nearest header of that level, unless a header of
    a higher rank came after it. *)
Fixpoint enclosing (seen : list (nat * string)) (level : nat) : option string :=
  match seen with
  | [] => None
  | (l, text) :: earlier =>
      if Nat.eqb l level then Some text
      else if Nat.ltb l level then None
      else enclosing earlier level
  end.

(** The metadata [meta] is the header chain after the headers [seen]. *)
Definition header_chain (meta : gmap string string) (seen : list (nat * string)) : Prop :=
  (forall level, 1 <= level <= 4 -> meta !! header_key level = enclosing seen level)
  /\ (forall key, is_Some (meta !! key) -> exists level, 1 <= level <= 4 /\ key = header_key level).

(** Whether content precedes the first header: the document does not begin
    with a header line. *)
Definition preamble (lines : list string) : nat :=
  if is_header_line (default "" (head lines)) then 0 else 1.

(** ** Concrete sessions *)

Module Scenario.

Definition intro_md : string := "# Intro
Hello world.
## Details
More text.".

Definition models : gmap string (list (gmap string string)) :=
  {[ "models" := [ {[ "name" := "llama3" ]}; {[ "name" := "nomic-embed-text" ]} ] ]}.

(** A machine with one corpus directory [ub] holding [files]; the services
    answer, the chat model as [reply] says. *)
Definition machine (files : list (string * string)) (reply : string + string) : Env :=
  mkEnv (inr ["ub"]) (inr models)
        (fun path => if String.eqb path "/data/ub-llm/korpora/ub"
                     then inr files else inl "FileNotFoundError")
        (fun bytes => bytes)
        (fun _ _ => None)
        (fun _ => None)
        (fun _ _ docs => inr docs)
        (fun _ _ => reply)
        (fun docs => join_lines (map page_content docs)).

Definition with_corpus : Env := machine [("intro.md", intro_md)] (inr "42").
Definition without_markdown : Env := machine [("notes.txt", "plain")] (inr "42").
Definition chat_down : Env := machine [("intro.md", intro_md)] (inl "connection refused").

Definition widgets (reload : bool) (prompt : option string) : Inputs :=
  mkInputs "llama3" "ub" "nomic-embed-text" reload prompt.

Definition myRAG : Chroma := mkChroma "myRAG" "nomic-embed-text".

(** the session after the page was opened *)
Definition opened (env : Env) : World := script_run env (widgets false None) fresh_session.

(** the session after one question *)
Definition asked (env : Env) : World :=
  script_run env (widgets false (Some "What is X?")) (opened env).

End Scenario.

(** * Vocabulary of the further properties *)

(** The part of [template] in front of the context. *)
Definition instruction : string :=
  "Du bist eine künstliche Intelligenz, die in der Universitätsbibliothek (UB) der Technischen Universität Braunscheig (TUBS) arbeitet. Vor diesem Hintergrund, beantworten Sie die Frage NUR auf der Grundlage des folgenden Kontextes:
    ".

(** What [main_history] draws for one message, lines 298-301. *)
Definition message_elements (message : ChatMessage) : list element :=
  [chat_message (role message)
     (if String.eqb (role message) "assistant" then "🤖" else "😎");
   markdown (content message)].

Definition history_elements (l : list ChatMessage) : list element :=
  concat (map message_elements l).

(** The two roles [main] writes into the transcript. *)
Definition chat_role (message : ChatMessage) : Prop :=
  role message = "user" \/ role message = "assistant".

(** The transcript is [l] followed by messages of the two roles. *)
Definition extends_transcript (l : list ChatMessage)
    (ss : gmap string value) (cs : gmap string (list Document)) (c : list call) : Prop :=
  exists new, ss !! "messages" = Some (VList (l ++ new)) /\ Forall chat_role new.

(** The keys [delete_vector_db] pops, lines 183-185. *)
Definition reload_keys : list string := ["pdf_pages"; "file_upload"; "vector_db"].


Definition keeps_pop_of
    (J : gmap string value -> gmap string (list Document) -> list call -> Prop)
    (keys : list string) : Prop :=
  forall key, key ∈ keys -> forall ss cs c, J ss cs c -> J (delete key ss) cs c.

(** [m] never asks for a rerun. *)
Definition no_rerun {A} (m : M A) : Prop :=
  forall w, fst (m w) <> Raise RerunException.

(** The document [DirectoryLoader] makes of a directory entry. *)
Definition loaded (env : Env) (path : string) (entry : string * string) : Document :=
  mkDocument (unstructured_text env (snd entry))
             {[ "source" := path +:+ "/" +:+ fst entry ]}.

(** The session state after [if key not in st.session_state: ...]. *)
Definition with_default (key : string) (v : value) (ss : gmap string value)
    : gmap string value :=
  if bool_decide (is_Some (ss !! key)) then ss else <[key := v]> ss.

(** The session state after the initialisation of [main], lines 225-230. *)
Definition initialised (ss : gmap string value) : gmap string value :=
  with_default "use_sample" (VBool false)
    (with_default "vector_db" VNone (with_default "messages" (VList []) ss)).

(** The option [main] has picked in a select box, if it has been drawn. *)
Definition selected (options : list string) (picked : string) : option string :=
  if nonempty options then Some (selectbox options picked) else None.

(** The files [load_documents] reads from a directory listing. *)
Definition markdown_files (entries : list (string * string)) : list (string * string) :=
  filter (fun entry => glob_match "./*.md" (fst entry) = true
                       /\ is_visible (fst entry) = true) entries.

(** The world once [main] has drawn its header, line 212. *)
Definition after_header (w : World) : World :=
  mkWorld (session_state w) (collections w)
          (page w ++ [subheader "🧠 Ollama UB RAG playground"]) (calls w).

(** No index: the handle is missing or [None]. *)
Definition no_index (ss : gmap string value) : Prop :=
  ss !! "vector_db" = None \/ ss !! "vector_db" = Some VNone.

(** ** More concrete machines *)

Module Cases.

(** The machine of [Scenario.with_corpus] with one service changed. *)
Definition no_corpora : Env :=
  mkEnv (inr []) (inr Scenario.models)
        (directory Scenario.with_corpus) (unstructured_text Scenario.with_corpus)
        (embed_error Scenario.with_corpus) (delete_error Scenario.with_corpus)
        (rank Scenario.with_corpus) (chat Scenario.with_corpus)
        (format_context Scenario.with_corpus).

Definition ollama_down : Env :=
  mkEnv (inr ["ub"]) (inl "connection refused")
        (directory Scenario.with_corpus) (unstructured_text Scenario.with_corpus)
        (embed_error Scenario.with_corpus) (delete_error Scenario.with_corpus)
        (rank Scenario.with_corpus) (chat Scenario.with_corpus)
        (format_context Scenario.with_corpus).

Definition embedding_down : Env :=
  mkEnv (inr ["ub"]) (inr Scenario.models)
        (directory Scenario.with_corpus) (unstructured_text Scenario.with_corpus)
        (fun _ _ => Some "embedding failed") (delete_error Scenario.with_corpus)
        (rank Scenario.with_corpus) (chat Scenario.with_corpus)
        (format_context Scenario.with_corpus).

Definition store_down : Env :=
  mkEnv (inr ["ub"]) (inr Scenario.models)
        (directory Scenario.with_corpus) (unstructured_text Scenario.with_corpus)
        (embed_error Scenario.with_corpus) (fun _ => Some "collection is locked")
        (rank Scenario.with_corpus) (chat Scenario.with_corpus)
        (format_context Scenario.with_corpus).

Definition question : string := "What is X?".

(** the chunks of [intro.md] as the loader hands it over *)
Definition chunks : list Document :=
  split_documents
    (map (loaded Scenario.with_corpus "/data/ub-llm/korpora/ub")
         (markdown_files [("intro.md", Scenario.intro_md)])).

(** a session initialised and without index *)
Definition initial : World := set_session_state initialised fresh_session.

End Cases.

(** * Properties *)

(** ** Text utilities *)

Example split_lines_ex :
  split_lines "# Intro
Hello world.
## Details
More text." = ["# Intro"; "Hello world."; "## Details"; "More text."].
Proof. reflexivity. Qed.

Example format_ex :
  format "ctx: {context} Q: {question}!" [("context", "A"); ("question", "B")]
  = "ctx: A Q: B!".
Proof. reflexivity. Qed.

Example glob_match_ex :
  glob_match "./*.md" "intro.md" = true /\ glob_match "./*.md" "notes.txt" = false
  /\ glob_match "./*.md" ".md" = true /\ glob_match "./*.md" "a.mdx" = false.
Proof. repeat split; reflexivity. Qed.

Example strip_ex : strip "  Intro  " = "Intro" /\ count_hashes "## Details" = (2, " Details").
Proof. split; reflexivity. Qed.

(** ** Calls issued by a computation *)

Lemma drop_length_app {A} (l k : list A) : drop (length l) (l ++ k) = k.
Proof. by rewrite drop_app_length. Qed.

Section Answering.

Variable env : Env.

(** [process_question] spelled out: one similarity search, then, when it
    returned, one generation. *)
Lemma process_question_unfold question db model w :
  process_question env question db model w =
  match retrieved env w db question with
  | inl msg =>
      (Raise (Exception msg),
       mkWorld (session_state w) (collections w) (page w)
               (calls w ++ [similarity_search db question 3]))
  | inr ranked =>
      (of_sum (chat env model (rag_prompt env ranked question)),
       mkWorld (session_state w) (collections w) (page w)
               (calls w ++ [similarity_search db question 3;
                            chat_generate model (rag_prompt env ranked question)]))
  end.
Proof.
  unfold process_question, retrieved, rag_prompt, pipe, RunnableParallel,
    RunnablePassthrough, RunnableLambda, StrOutputParser, retriever_invoke,
    ChatPromptTemplate_from_template, ChatOllama, inspect, collections_get,
    issue, lift, ret, bind.
  simpl.
  destruct (rank env _ _ _) as [msg|ranked]; simpl; [done|].
  rewrite <- app_assoc. simpl.
  by destruct (chat env model _).
Qed.

Lemma process_question_issued question db model w :
  issued (process_question env question db model) w =
  match retrieved env w db question with
  | inl _ => [similarity_search db question 3]
  | inr ranked => [similarity_search db question 3;
                   chat_generate model (rag_prompt env ranked question)]
  end.
Proof.
  unfold issued. rewrite process_question_unfold.
  destruct (retrieved env w db question); simpl; apply drop_length_app.
Qed.

(** C3: answering one question sends exactly one similarity query, with
    k = 3 and the question unchanged, and at most one chat-generation
    request: exactly one on every run in which the query returns, with a
    prompt built from at most 3 chunks.  Nothing else is sent: there is no
    paraphrasing request and no second query. *)
Theorem process_question_one_query_one_generation question db model w :
  let sent := issued (process_question env question db model) w in
  filter (fun c => is_similarity_search c = true) sent
    = [similarity_search db question 3]
  /\ count is_similarity_search sent = 1
  /\ count is_chat_generate sent <= 1
  /\ length sent = count is_similarity_search sent + count is_chat_generate sent
  /\ match retrieved env w db question with
     | inr ranked =>
         count is_chat_generate sent = 1
         /\ sent = [similarity_search db question 3;
                    chat_generate model (rag_prompt env ranked question)]
         /\ length (take 3 ranked) <= 3
     | inl msg =>
         fst (process_question env question db model w) = Raise (Exception msg)
     end.
Proof.
  intros sent. subst sent. rewrite process_question_issued.
  destruct (retrieved env w db question) as [msg|ranked] eqn:Hr.
  - repeat split; simpl; try lia.
    rewrite process_question_unfold, Hr. done.
  - repeat split; simpl; try lia.
    rewrite length_take. lia.
Qed.

End Answering.

(** Running the primitive steps of a script. *)
Ltac run_script :=
  repeat (progress
            (unfold messages_append, ss_setdefault, ss_get, ss_set, ss_pop,
               ss_contains, st_write,
               issue, collections_get, collections_update, set_session_state,
               set_collections, when, ret, raise, lift, local, unbound, st_rerun, bind;
             simpl)).

(** ** One chat turn *)

Section ChatTurn.

Variable env : Env.

Lemma main_chat_no_index_unfold c s selected_model w l :
  session_state w !! "vector_db" = Some VNone ->
  session_state w !! "messages" = Some (VList l) ->
  main_chat env (Some (String c s)) selected_model w =
  (Ok tt,
   mkWorld (<["messages" := VList (l ++ [user_message (String c s)])]> (session_state w))
           (collections w)
           (page w ++ turn_opening (String c s)
              ++ [warning "Please upload a PDF file first."])
           (calls w)).
Proof.
  intros Hdb Hmsg.
  unfold main_chat, try_except, messages_append, ss_get, ss_set, st_write,
    set_session_state, when, ret, bind.
  simpl. rewrite Hmsg. simpl.
  rewrite lookup_insert_ne by done. rewrite Hdb. simpl.
  rewrite lookup_insert_ne by done. rewrite Hdb. simpl.
  by rewrite <- !app_assoc.
Qed.

Lemma main_chat_index_unfold c s model db w l :
  session_state w !! "vector_db" = Some (VChroma db) ->
  session_state w !! "messages" = Some (VList l) ->
  let prompt := String c s in
  let said := <["messages" := VList (l ++ [user_message prompt])]> (session_state w) in
  main_chat env (Some prompt) (Some model) w =
  match retrieved env w db prompt with
  | inl msg =>
      (Ok tt,
       mkWorld said (collections w)
               (page w ++ turn_opening prompt ++ [error msg])
               (calls w ++ [similarity_search db prompt 3]))
  | inr ranked =>
      let sent := [similarity_search db prompt 3;
                   chat_generate model (rag_prompt env ranked prompt)] in
      match chat env model (rag_prompt env ranked prompt) with
      | inl msg =>
          (Ok tt,
           mkWorld said (collections w)
                   (page w ++ turn_opening prompt ++ [error msg])
                   (calls w ++ sent))
      | inr response =>
          (Ok tt,
           mkWorld (<["messages" :=
                        VList ((l ++ [user_message prompt])
                                 ++ [assistant_message response])]> (session_state w))
                   (collections w)
                   (page w ++ turn_opening prompt ++ [markdown response])
                   (calls w ++ sent))
      end
  end.
Proof.
  intros Hdb Hmsg prompt said. subst prompt said.
  unfold main_chat, try_except, bind at 1.
  unfold bind at 1, messages_append at 1, bind at 1, ss_get at 1.
  rewrite Hmsg. unfold ss_set at 1. simpl.
  unfold bind at 1, st_write at 1. simpl.
  unfold bind at 1, st_write at 1. simpl.
  unfold bind at 1, st_write at 1. simpl.
  unfold bind at 1, ss_get at 1. simpl.
  rewrite lookup_insert_ne by done. rewrite Hdb.
  unfold bind at 1, bind at 1, local, ret at 1, bind at 1.
  rewrite process_question_unfold. unfold retrieved. simpl.
  destruct (rank env _ _ _) as [msg|ranked]; simpl.
  - unfold st_write. simpl. by rewrite <- !app_assoc.
  - destruct (chat env model _) as [msg|response]; simpl.
    + unfold st_write. simpl. by rewrite <- !app_assoc.
    + run_script.
      rewrite lookup_insert_ne by done. rewrite Hdb. run_script.
      rewrite lookup_insert_eq. simpl. rewrite insert_insert_eq.
      by rewrite <- !app_assoc.
Qed.

End ChatTurn.

Section ChatTurnClaims.

Variable env : Env.

(** C2 (as the code has it): a question submitted while the session has no
    index raises nothing; the user message is appended to the transcript, a
    warning is shown instead of an answer, no assistant message is appended
    and no request is sent. *)
Theorem main_chat_without_index c s selected_model w l :
  session_state w !! "vector_db" = Some VNone ->
  session_state w !! "messages" = Some (VList l) ->
  let prompt := String c s in
  let '(r, w') := main_chat env (Some prompt) selected_model w in
  r = Ok tt
  /\ session_state w' !! "messages" = Some (VList (l ++ [user_message prompt]))
  /\ session_state w' !! "vector_db" = Some VNone
  /\ page w' = page w ++ turn_opening prompt ++ [warning "Please upload a PDF file first."]
  /\ calls w' = calls w
  /\ collections w' = collections w.
Proof.
  intros Hdb Hmsg prompt. subst prompt.
  rewrite (main_chat_no_index_unfold env c s selected_model w l Hdb Hmsg).
  simpl. rewrite lookup_insert_eq, lookup_insert_ne by done. done.
Qed.

(** C4: when retrieval or generation raises during a turn, the turn ends
    normally with the error shown on the page; the user message stays in
    the transcript, no assistant message is appended, and the requests sent
    are those of the single failed attempt. *)
Theorem main_chat_answer_fails c s model db w l e :
  session_state w !! "vector_db" = Some (VChroma db) ->
  session_state w !! "messages" = Some (VList l) ->
  fst (process_question env (String c s) db model w) = Raise e ->
  let prompt := String c s in
  let '(r, w') := main_chat env (Some prompt) (Some model) w in
  r = Ok tt
  /\ session_state w' !! "messages" = Some (VList (l ++ [user_message prompt]))
  /\ (exists msg, e = Exception msg
                  /\ page w' = page w ++ turn_opening prompt ++ [error msg])
  /\ drop (length (calls w)) (calls w')
     = issued (process_question env prompt db model) w
  /\ count is_similarity_search (drop (length (calls w)) (calls w')) = 1
  /\ count is_chat_generate (drop (length (calls w)) (calls w')) <= 1.
Proof.
  intros Hdb Hmsg Hfail prompt. subst prompt.
  rewrite (main_chat_index_unfold env c s model db w l Hdb Hmsg).
  rewrite process_question_issued.
  rewrite process_question_unfold in Hfail.
  destruct (retrieved env w db (String c s)) as [msg|ranked]; simpl in *.
  - rewrite lookup_insert_eq, drop_length_app.
    split; [done|]. split; [done|].
    split; [exists msg; split; [congruence|done]|].
    split; [done|]. simpl. lia.
  - destruct (chat env model _) as [msg|response]; simpl in *; [|done].
    rewrite lookup_insert_eq, drop_length_app.
    split; [done|]. split; [done|].
    split; [exists msg; split; [congruence|done]|].
    split; [done|]. simpl. lia.
Qed.

End ChatTurnClaims.

(** C2, the claim as stated fails: in a session whose corpus directory holds
    no markdown file there is no index, yet a question raises nothing and
    leaves its user message in the transcript. *)
Lemma main_without_index_counterexample :
  let w := Scenario.opened Scenario.without_markdown in
  session_state w !! "vector_db" = Some VNone
  /\ session_state w !! "messages" = Some (VList [])
  /\ let '(r, w') := main Scenario.without_markdown
                          (Scenario.widgets false (Some "What is X?")) w in
     r = Ok tt
     /\ session_state w' !! "messages" = Some (VList [user_message "What is X?"])
     /\ session_state w' !! "messages" <> session_state w !! "messages".
Proof. vm_compute. repeat split; congruence. Qed.

Lemma main_chat_without_index_witness :
  let w := Scenario.opened Scenario.without_markdown in
  let '(r, w') := main_chat Scenario.without_markdown (Some "What is X?") (Some "llama3") w in
  r = Ok tt
  /\ session_state w' !! "messages" = Some (VList ([] ++ [user_message "What is X?"]))
  /\ session_state w' !! "vector_db" = Some VNone
  /\ page w' = page w ++ turn_opening "What is X?" ++ [warning "Please upload a PDF file first."]
  /\ calls w' = calls w
  /\ collections w' = collections w.
Proof.
  apply (main_chat_without_index Scenario.without_markdown "W" "hat is X?" (Some "llama3")
           (Scenario.opened Scenario.without_markdown) []); reflexivity.
Defined.

Lemma main_chat_answer_fails_witness :
  let w := Scenario.opened Scenario.chat_down in
  let '(r, w') := main_chat Scenario.chat_down (Some "What is X?") (Some "llama3") w in
  r = Ok tt
  /\ session_state w' !! "messages" = Some (VList ([] ++ [user_message "What is X?"]))
  /\ (exists msg, Exception "connection refused" = Exception msg
                  /\ page w' = page w ++ turn_opening "What is X?" ++ [error msg])
  /\ drop (length (calls w)) (calls w')
     = issued (process_question Scenario.chat_down "What is X?" Scenario.myRAG "llama3") w
  /\ count is_similarity_search (drop (length (calls w)) (calls w')) = 1
  /\ count is_chat_generate (drop (length (calls w)) (calls w')) <= 1.
Proof.
  apply (main_chat_answer_fails Scenario.chat_down "W" "hat is X?" "llama3" Scenario.myRAG
           (Scenario.opened Scenario.chat_down) [] (Exception "connection refused"));
    reflexivity.
Defined.

(** ** Reload *)

Section Reload.

Variable env : Env.

(** C9: [delete_vector_db] on an absent handle returns normally; it only
    writes an error element to the page: the session state, the store's
    collections and the requests sent are what they were.  So does the
    reload button of [main] when the session holds no handle. *)
Theorem delete_vector_db_none w :
  delete_vector_db env VNone w
  = (Ok tt,
     mkWorld (session_state w) (collections w)
             (page w ++ [error "No vector database found to delete."])
             (calls w))
  /\ (session_state w !! "vector_db" = Some VNone ->
      main_delete env true w
      = (Ok tt,
         mkWorld (session_state w) (collections w)
                 (page w ++ [error "No vector database found to delete."])
                 (calls w))).
Proof.
  split; [reflexivity|].
  intros Hdb. unfold main_delete, when, bind, ss_get.
  rewrite Hdb. reflexivity.
Qed.

(** C1 (as the code has it): the reload action never touches the
    transcript.  With a handle it asks the store to drop the collection
    and, when the store obliges, removes the keys [pdf_pages],
    [file_upload] and [vector_db] from the session state, reports success
    and requests a rerun; without a handle it changes nothing, reports an
    error on the page and returns normally. *)
Theorem delete_vector_db_keeps_transcript vector_db w :
  let '(r, w') := delete_vector_db env vector_db w in
  session_state w' !! "messages" = session_state w !! "messages"
  /\ match vector_db with
     | VChroma db =>
         calls w' = calls w ++ [delete_collection_call (collection_name db)]
         /\ match delete_error env (collection_name db) with
            | None =>
                r = Raise RerunException
                /\ collections w' = delete (collection_name db) (collections w)
                /\ session_state w'
                   = delete "vector_db"
                       (delete "file_upload" (delete "pdf_pages" (session_state w)))
                /\ session_state w' !! "vector_db" = None
                /\ page w'
                   = page w ++ [success "Collection and temporary files deleted successfully."]
            | Some msg =>
                r = Raise (Exception msg)
                /\ collections w' = collections w
                /\ session_state w' = session_state w
            end
     | VNone =>
         r = Ok tt
         /\ session_state w' = session_state w
         /\ collections w' = collections w
         /\ calls w' = calls w
     | _ => r = Raise (Exception "AttributeError: delete_collection")
     end.
Proof.
  destruct vector_db as [|b|l|db]; simpl; try done.
  unfold delete_collection. run_script.
  destruct (delete_error env (collection_name db)) as [msg|]; simpl; [done|].
  rewrite lookup_delete_eq.
  rewrite !lookup_delete_ne by done. done.
Qed.

End Reload.

(** C1, the claim as stated fails: after a question was answered, the reload
    action drops the collection and the handle but the two messages of the
    transcript are still there, also after the rerun it requests. *)
Lemma delete_vector_db_counterexample :
  let env := Scenario.with_corpus in
  let w := Scenario.asked env in
  let transcript := VList [user_message "What is X?"; assistant_message "42"] in
  session_state w !! "messages" = Some transcript
  /\ session_state w !! "vector_db" = Some (VChroma Scenario.myRAG)
  /\ (let '(r, w') := delete_vector_db env (VChroma Scenario.myRAG) w in
      r = Raise RerunException
      /\ session_state w' !! "vector_db" = None
      /\ collections w' !! "myRAG" = None
      /\ session_state w' !! "messages" = Some transcript)
  /\ session_state (script_run env (Scenario.widgets true None) w) !! "messages"
     = Some transcript
  /\ transcript <> VList [].
Proof. vm_compute. repeat split; congruence. Qed.

Lemma delete_vector_db_none_witness :
  let env := Scenario.without_markdown in
  let w := Scenario.opened env in
  session_state w !! "vector_db" = Some VNone
  /\ main_delete env true w
     = (Ok tt,
        mkWorld (session_state w) (collections w)
                (page w ++ [error "No vector database found to delete."])
                (calls w)).
Proof.
  intros env w. split; [reflexivity|].
  apply (delete_vector_db_none env w). reflexivity.
Defined.

(** ** Loading a corpus *)

Section Loading.

Variable env : Env.

Lemma filter_glob_none (pattern : string) (entries : list (string * string)) :
  Forall (fun entry => glob_match pattern (fst entry) = false) entries ->
  filter (fun entry => glob_match pattern (fst entry) = true) entries = [].
Proof.
  induction 1 as [|entry entries Hentry _ IH]; [done|].
  rewrite filter_cons, IH. case_decide; [congruence|done].
Qed.

(** C7 (as the code has it): for a directory with no file matching
    [./*.md], [load_documents] returns the empty list and raises nothing;
    it is [main] that tells the empty list apart: it shows the error
    "No website data found.", builds no index and goes on. *)
Theorem load_documents_without_markdown path entries w :
  directory env path = inr entries ->
  Forall (fun entry => glob_match "./*.md" (fst entry) = false) entries ->
  load_documents env path w
  = (Ok [], mkWorld (session_state w) (collections w) (page w)
                    (calls w ++ [directory_load path "./*.md"]))
  /\ forall korpus selected_embedding_model,
       path = korpora_path +:+ korpus ->
       session_state w !! "vector_db" = Some VNone ->
       main_build env (Some korpus) selected_embedding_model w
       = (Ok tt, mkWorld (session_state w) (collections w)
                         (page w ++ [error "No website data found."])
                         (calls w ++ [directory_load path "./*.md"])).
Proof.
  intros Hdir Hnone.
  assert (Hload : load_documents env path w
                  = (Ok [], mkWorld (session_state w) (collections w) (page w)
                                    (calls w ++ [directory_load path "./*.md"]))).
  { unfold load_documents, DirectoryLoader_load, issue, lift, ret, bind.
    cbn -[glob_match filter]. rewrite Hdir. cbn -[glob_match filter].
    by rewrite (filter_glob_none _ _ Hnone). }
  split; [done|].
  intros korpus emb -> Hdb.
  unfold main_build. unfold bind at 1, ss_get at 1. rewrite Hdb. simpl.
  unfold bind at 1, ret at 1. unfold bind at 1. rewrite Hload. done.
Qed.

End Loading.

(** C7, the claim as stated fails: the corpus directory holds [notes.txt]
    only, and [load_documents] returns the empty list instead of raising. *)
Lemma load_documents_counterexample :
  let env := Scenario.without_markdown in
  directory env "/data/ub-llm/korpora/ub" = inr [("notes.txt", "plain")]
  /\ glob_match "./*.md" "notes.txt" = false
  /\ fst (load_documents env "/data/ub-llm/korpora/ub" fresh_session) = Ok []
  /\ page (Scenario.opened env)
     = [subheader "🧠 Ollama UB RAG playground"; error "No website data found.";
        warning "Upload a PDF file or use the sample PDF to begin chat..."].
Proof. vm_compute. done. Qed.

Lemma load_documents_without_markdown_witness :
  let env := Scenario.without_markdown in
  let path := "/data/ub-llm/korpora/ub" in
  let w := fresh_session in
  load_documents env path w
  = (Ok [], mkWorld (session_state w) (collections w) (page w)
                    (calls w ++ [directory_load path "./*.md"]))
  /\ forall korpus selected_embedding_model,
       path = korpora_path +:+ korpus ->
       session_state w !! "vector_db" = Some VNone ->
       main_build env (Some korpus) selected_embedding_model w
       = (Ok tt, mkWorld (session_state w) (collections w)
                         (page w ++ [error "No website data found."])
                         (calls w ++ [directory_load path "./*.md"])).
Proof.
  apply (load_documents_without_markdown Scenario.without_markdown
           "/data/ub-llm/korpora/ub" [("notes.txt", "plain")] fresh_session).
  - reflexivity.
  - repeat constructor.
Defined.

(** ** Triples over script runs *)

Section TripleRules.

Context {A B : Type}.
Implicit Types P Q R E : World -> Prop.

Lemma triple_bind P R Q E (m : M A) (k : A -> M B) :
  triple P m R E -> (forall a, triple R (k a) Q E) -> triple P (bind m k) Q E.
Proof.
  intros Hm Hk w HP. unfold bind. specialize (Hm w HP).
  destruct (m w) as [[a|e] w']; [|done].
  apply (Hk a w' Hm).
Qed.

Lemma triple_ret P Q E (a : A) : (forall w, P w -> Q w) -> triple P (ret a) Q E.
Proof. intros H w HP. by apply H. Qed.

Lemma triple_raise P Q E (e : exn) :
  (forall w, P w -> E w) -> triple P (raise e : M A) Q E.
Proof. intros H w HP. by apply H. Qed.

Lemma triple_lift P Q E (r : result A) :
  (forall w, P w -> Q w) -> (forall w, P w -> E w) -> triple P (lift r) Q E.
Proof. intros HQ HE w HP. destruct r; simpl; auto. Qed.

Lemma triple_conseq P P' Q Q' E E' (m : M A) :
  (forall w, P' w -> P w) -> (forall w, Q w -> Q' w) -> (forall w, E w -> E' w) ->
  triple P m Q E -> triple P' m Q' E'.
Proof.
  intros HP HQ HE Hm w Hw. specialize (Hm w (HP w Hw)).
  destruct (m w) as [[a|e] w']; auto.
Qed.

Lemma triple_try_except P Q R E (body : M A) (handler : string -> M A) :
  triple P body Q R -> (forall w, R w -> E w) ->
  (forall msg, triple R (handler msg) Q E) ->
  triple P (try_except body handler) Q E.
Proof.
  intros Hb HR Hh w HP. unfold try_except. specialize (Hb w HP).
  destruct (body w) as [[a|[|msg]] w']; [done|by apply HR|].
  apply (Hh msg w' Hb).
Qed.

End TripleRules.

Lemma triple_when P Q E (b : bool) (m : M unit) :
  triple P m Q E -> (forall w, P w -> Q w) -> triple P (when b m) Q E.
Proof. intros Hm HQ. destruct b; simpl; [done|]. by apply triple_ret. Qed.

Lemma triple_for_each {A} I E (xs : list A) (body : A -> M unit) :
  (forall x, triple I (body x) I E) -> triple I (for_each xs body) I E.
Proof.
  intros Hbody. induction xs as [|x xs IH]; simpl.
  - by apply triple_ret.
  - eapply triple_bind; [apply Hbody|]. intros _. apply IH.
Qed.

Lemma triple_local {A} P Q E (name : string) (v : option A) :
  (forall w, P w -> Q w) -> (forall w, P w -> E w) -> triple P (local name v) Q E.
Proof.
  intros HQ HE. destruct v; simpl; [by apply triple_ret|by apply triple_raise].
Qed.

(** *** Invariants *)

Section KeepsRules.

Variable J : gmap string value -> gmap string (list Document) -> list call -> Prop.
Variable E : World -> Prop.

Lemma keeps_bind {A B} (m : M A) (k : A -> M B) :
  keeps J E m -> (forall a, keeps J E (k a)) -> keeps J E (bind m k).
Proof.
  intros Hm Hk HE. eapply triple_bind; [by apply Hm|]. intros a. by apply Hk.
Qed.

Lemma keeps_ret {A} (a : A) : keeps J E (ret a).
Proof. intros _. by apply triple_ret. Qed.

Lemma keeps_raise {A} (e : exn) : keeps J E (raise e : M A).
Proof. intros HE. by apply triple_raise. Qed.

Lemma keeps_lift {A} (r : result A) : keeps J E (lift r).
Proof. intros HE. by apply triple_lift. Qed.

Lemma keeps_local {A} (name : string) (v : option A) : keeps J E (local name v).
Proof. intros HE. by apply triple_local. Qed.

Lemma keeps_when (b : bool) (m : M unit) : keeps J E m -> keeps J E (when b m).
Proof. intros Hm HE. apply triple_when; [by apply Hm|done]. Qed.

Lemma keeps_for_each {A} (xs : list A) (body : A -> M unit) :
  (forall x, keeps J E (body x)) -> keeps J E (for_each xs body).
Proof. intros Hb HE. apply triple_for_each. intros x. by apply Hb. Qed.

Lemma keeps_try_except {A} (body : M A) (handler : string -> M A) :
  keeps J (on J) body -> (forall msg, keeps J E (handler msg)) ->
  keeps J E (try_except body handler).
Proof.
  intros Hb Hh HE. eapply triple_try_except; [by apply Hb|done|].
  intros msg. by apply Hh.
Qed.

Lemma keeps_st_write (e : element) : keeps J E (st_write e).
Proof. intros _ w Hw. exact Hw. Qed.

Lemma keeps_ss_get (key : string) : keeps J E (ss_get key).
Proof.
  intros HE w Hw. unfold ss_get. destruct (session_state w !! key); [done|by apply HE].
Qed.

Lemma keeps_ss_contains (key : string) : keeps J E (ss_contains key).
Proof. intros _ w Hw. exact Hw. Qed.

Lemma keeps_collections_get : keeps J E collections_get.
Proof. intros _ w Hw. exact Hw. Qed.

Lemma keeps_ss_set (key : string) (v : value) :
  (forall ss cs c, J ss cs c -> J (<[key := v]> ss) cs c) -> keeps J E (ss_set key v).
Proof. intros H _ w Hw. by apply H. Qed.

Lemma keeps_ss_pop (key : string) :
  (forall ss cs c, J ss cs c -> J (delete key ss) cs c) -> keeps J E (ss_pop key).
Proof. intros H _ w Hw. by apply H. Qed.

Lemma keeps_ss_setdefault (key : string) (v : value) :
  (forall ss cs c, J ss cs c -> ss !! key = None -> J (<[key := v]> ss) cs c) ->
  keeps J E (ss_setdefault key v).
Proof.
  intros H _ w Hw. unfold ss_setdefault, bind, ss_contains, when. simpl.
  case_bool_decide as Hkey; simpl; [done|].
  apply H; [done|]. by apply eq_None_not_Some.
Qed.

Lemma keeps_issue (c : call) :
  (forall ss cs cl, J ss cs cl -> J ss cs (cl ++ [c])) -> keeps J E (issue c).
Proof. intros H _ w Hw. by apply H. Qed.

Lemma keeps_collections_update (f : gmap string (list Document) -> gmap string (list Document)) :
  (forall ss cs c, J ss cs c -> J ss (f cs) c) -> keeps J E (collections_update f).
Proof. intros H _ w Hw. by apply H. Qed.

End KeepsRules.

(** One step of a proof that a script keeps an invariant: the rule of the
    construct at the head of the script. *)
Ltac keeps_step :=
  lazymatch goal with
  | |- keeps _ _ (bind (Chroma_from_documents _ _ _ _) _) => fail
  | |- keeps _ _ (bind _ _) => apply keeps_bind; [|intros ?; cbv beta]
  | |- keeps _ _ (ret _) => apply keeps_ret
  | |- keeps _ _ (raise _) => apply keeps_raise
  | |- keeps _ _ (unbound _) => apply keeps_raise
  | |- keeps _ _ st_rerun => apply keeps_raise
  | |- keeps _ _ (lift _) => apply keeps_lift
  | |- keeps _ _ (local _ _) => apply keeps_local
  | |- keeps _ _ (when _ _) => apply keeps_when
  | |- keeps _ _ (for_each _ _) => apply keeps_for_each; intros ?; cbv beta
  | |- keeps _ _ (try_except _ _) => apply keeps_try_except; [|intros ?; cbv beta]
  | |- keeps _ _ (st_write _) => apply keeps_st_write
  | |- keeps _ _ (ss_get _) => apply keeps_ss_get
  | |- keeps _ _ (ss_contains _) => apply keeps_ss_contains
  | |- keeps _ _ collections_get => apply keeps_collections_get
  | |- keeps _ _ (ss_set _ _) => apply keeps_ss_set
  | |- keeps _ _ (ss_pop _) => apply keeps_ss_pop
  | |- keeps _ _ (ss_setdefault _ _) => apply keeps_ss_setdefault
  | |- keeps _ _ (issue _) => apply keeps_issue
  | |- keeps _ _ (collections_update _) => apply keeps_collections_update
  | |- keeps _ _ (messages_append _) => unfold messages_append
  | |- keeps _ _ (load_documents _ _) => unfold load_documents, DirectoryLoader_load
  | |- keeps _ _ (delete_vector_db _ _) => unfold delete_vector_db
  | |- keeps _ _ (delete_collection _ _) => unfold delete_collection
  | |- keeps _ _ (match ?x with _ => _ end) => destruct x
  | |- keeps _ _ (let _ := _ in _) => cbv zeta
  end.

Section Components.

Variable env : Env.
Variable J : gmap string value -> gmap string (list Document) -> list call -> Prop.

Lemma keeps_process_question E question db model :
  (forall c, is_similarity_search c || is_chat_generate c = true -> keeps_call J c) ->
  keeps J E (process_question env question db model).
Proof.
  intros Hcall HE w Hw. rewrite process_question_unfold.
  destruct (retrieved env w db question) as [msg|ranked].
  - apply HE. apply (Hcall (similarity_search db question 3)); done.
  - assert (on J (mkWorld (session_state w) (collections w) (page w)
                    (calls w ++ [similarity_search db question 3;
                                 chat_generate model (rag_prompt env ranked question)]))).
    { unfold on. simpl.
      change (calls w ++ [similarity_search db question 3;
                          chat_generate model (rag_prompt env ranked question)])
        with (calls w ++ [similarity_search db question 3]
                ++ [chat_generate model (rag_prompt env ranked question)]).
      rewrite app_assoc. apply Hcall; [done|]. apply Hcall; done. }
    destruct (chat env model _); simpl; [by apply HE|done].
Qed.

Lemma keeps_main_history E : keeps J E main_history.
Proof. unfold main_history. repeat keeps_step. Qed.

Lemma keeps_main_chat E prompt selected_model :
  keeps_messages J ->
  (forall c, is_similarity_search c || is_chat_generate c = true -> keeps_call J c) ->
  keeps J E (main_chat env prompt selected_model).
Proof.
  intros Hmsg Hcall. unfold main_chat.
  destruct prompt as [[|c s]|]; repeat keeps_step;
    try apply Hmsg; by apply keeps_process_question.
Qed.

Lemma keeps_main_delete E delete_collection :
  keeps_pop J -> keeps_drop J -> (forall name, keeps_call J (delete_collection_call name)) ->
  keeps J E (main_delete env delete_collection).
Proof.
  intros Hpop Hdrop Hcall. unfold main_delete.
  repeat keeps_step; try apply Hpop; try apply Hdrop; apply Hcall.
Qed.

Lemma keeps_build E chunks model :
  keeps_call J (from_documents chunks model "myRAG") -> keeps_fill J -> keeps_handle J ->
  keeps J E (db <- Chroma_from_documents env chunks model "myRAG" ;;
             ss_set "vector_db" (VChroma db)).
Proof.
  intros Hcall Hfill Hhandle HE w Hw.
  unfold Chroma_from_documents. run_script.
  destruct (embed_error env model chunks) as [msg|]; simpl.
  - apply HE. apply Hfill. by apply Hcall.
  - apply Hhandle. apply Hfill. apply Hfill. by apply Hcall.
Qed.

Lemma keeps_main_build E selected_korpus selected_embedding_model :
  (forall path glob, keeps_call J (directory_load path glob)) ->
  (forall chunks model, keeps_call J (from_documents chunks model "myRAG")) ->
  keeps_fill J -> keeps_handle J ->
  keeps J E (main_build env selected_korpus selected_embedding_model).
Proof.
  intros Hload Hcall Hfill Hhandle. unfold main_build.
  repeat keeps_step; try apply Hload.
  by apply keeps_build.
Qed.

(** [main] keeps what its four parts keep. *)
Lemma keeps_main E inp :
  keeps_default J ->
  (forall k e, keeps J E (main_build env k e)) ->
  keeps J E (main_delete env (delete_button inp)) ->
  (forall m, keeps J E (main_chat env (chat_input inp) m)) ->
  keeps J E (main env inp).
Proof.
  intros Hdefault Hbuild Hdelete Hchat. unfold main.
  repeat keeps_step;
    try (apply Hdefault; unfold session_defaults; set_solver);
    try apply Hbuild; try apply Hdelete; try apply Hchat; apply keeps_main_history.
Qed.

End Components.

Lemma keeps_always {A} J (m : M A) w :
  keeps J (on J) m -> on J w -> on J (snd (m w)).
Proof.
  intros Hm Hw. specialize (Hm (fun _ H => H) w Hw).
  by destruct (m w) as [[a|e] w'].
Qed.

(** ** The collection of a session *)

Lemma sent_since_call base (P : call -> Prop) c :
  P c -> keeps_call (sent_since base P) c.
Proof.
  intros Hc ss cs cl (new & -> & Hnew).
  exists (new ++ [c]). split; [by rewrite app_assoc|].
  apply Forall_app. split; [done|]. by constructor.
Qed.

Lemma sent_since_issued {A} base P (m : M A) w :
  base = calls w -> on (sent_since base P) (snd (m w)) -> Forall P (issued m w).
Proof.
  intros -> (new & Hnew & HP). unfold issued. rewrite Hnew.
  by rewrite drop_length_app.
Qed.

Section Collection.

Variable env : Env.

Lemma main_sent_since base (P : call -> Prop) inp :
  (forall c, builds_in "myRAG" c -> P c) ->
  keeps (sent_since base P) (on (sent_since base P)) (main env inp).
Proof.
  intros HP.
  assert (Hcall : forall c, builds_in "myRAG" c -> keeps_call (sent_since base P) c).
  { intros c Hc. apply sent_since_call. by apply HP. }
  apply keeps_main.
  - intros key v _ ss cs c H _. exact H.
  - intros k e. apply keeps_main_build; try (intros; apply Hcall; done); by intros ? ? ? ? ?.
  - apply keeps_main_delete; try (intros; apply Hcall; done); by intros ? ? ? ? ?.
  - intros m. apply keeps_main_chat; [by intros ? ? ? ? ?|].
    intros [] Hc; try done; by apply Hcall.
Qed.

Lemma main_handle_names inp :
  keeps (fun ss _ _ => handle_names "myRAG" ss)
        (on (fun ss _ _ => handle_names "myRAG" ss)) (main env inp).
Proof.
  apply keeps_main.
  - intros key v Hin ss cs c H Hnone db Hdb.
    destruct (decide (key = "vector_db")) as [->|Hne].
    + rewrite lookup_insert_eq in Hdb. unfold session_defaults in Hin.
      rewrite !elem_of_cons, elem_of_nil in Hin.
      destruct Hin as [Hin|[Hin|[Hin|[]]]]; inversion Hin; subst; discriminate.
    + rewrite lookup_insert_ne in Hdb by done. by apply H.
  - intros k e. apply keeps_main_build; try by intros ? ? ? ? ?.
    intros model ss cs c H db Hdb. rewrite lookup_insert_eq in Hdb. by simplify_eq.
  - apply keeps_main_delete; try by intros ? ? ? ? ?.
    intros key ss cs c H db Hdb. apply H.
    destruct (decide (key = "vector_db")) as [->|Hne].
    + by rewrite lookup_delete_eq in Hdb.
    + by rewrite lookup_delete_ne in Hdb.
  - intros m. apply keeps_main_chat; [|by intros ? ? ? ? ? ?].
    intros v ss cs c H db Hdb. rewrite lookup_insert_ne in Hdb by done. by apply H.
Qed.

Lemma main_handle_built inp w db :
  session_state w !! "vector_db" = None \/ session_state w !! "vector_db" = Some VNone ->
  session_state (snd (main env inp w)) !! "vector_db" = Some (VChroma db) ->
  collection_name db = "myRAG".
Proof.
  intros Hnone Hdb.
  apply (keeps_always _ _ w (main_handle_names inp)); [|done].
  intros db' Hdb'. destruct Hnone as [H|H]; congruence.
Qed.

End Collection.

(** C10: whatever the session, the corpus and the embedding model picked,
    every build request of a script run names the collection "myRAG", and so
    does the handle a run leaves in a session that had none; hence the
    handles of any two sessions name one and the same collection. *)
Theorem main_builds_in_myRAG env inp w :
  Forall (builds_in "myRAG") (issued (main env inp) w)
  /\ (forall db,
        session_state w !! "vector_db" = None \/ session_state w !! "vector_db" = Some VNone ->
        session_state (snd (main env inp w)) !! "vector_db" = Some (VChroma db) ->
        collection_name db = "myRAG")
  /\ (forall env' inp' w' db db',
        session_state w !! "vector_db" = None ->
        session_state w' !! "vector_db" = None ->
        session_state (snd (main env inp w)) !! "vector_db" = Some (VChroma db) ->
        session_state (snd (main env' inp' w')) !! "vector_db" = Some (VChroma db') ->
        collection_name db = collection_name db').
Proof.
  split; [|split].
  - apply (sent_since_issued (calls w) _ _ w eq_refl).
    apply keeps_always; [by apply main_sent_since|].
    exists []. split; [by rewrite app_nil_r|done].
  - apply main_handle_built.
  - intros env' inp' w' db db' H H' Hdb Hdb'.
    rewrite (main_handle_built env inp w db), (main_handle_built env' inp' w' db'); auto.
Qed.

Lemma main_builds_in_myRAG_witness :
  let env := Scenario.with_corpus in
  let inp := Scenario.widgets false None in
  let w := fresh_session in
  Forall (builds_in "myRAG") (issued (main env inp) w)
  /\ (forall db,
        session_state w !! "vector_db" = None \/ session_state w !! "vector_db" = Some VNone ->
        session_state (snd (main env inp w)) !! "vector_db" = Some (VChroma db) ->
        collection_name db = "myRAG")
  /\ (forall env' inp' w' db db',
        session_state w !! "vector_db" = None ->
        session_state w' !! "vector_db" = None ->
        session_state (snd (main env inp w)) !! "vector_db" = Some (VChroma db) ->
        session_state (snd (main env' inp' w')) !! "vector_db" = Some (VChroma db') ->
        collection_name db = collection_name db').
Proof.
  apply (main_builds_in_myRAG Scenario.with_corpus (Scenario.widgets false None)
           fresh_session).
Defined.

(** Two sessions on one store: the second build adds its chunks to the
    collection the first session filled. *)
Example two_sessions_one_collection :
  let env := Scenario.with_corpus in
  let first := Scenario.opened env in
  let second := script_run env (Scenario.widgets false None)
                  (mkWorld ∅ (collections first) [] []) in
  let chunks := split_documents [mkDocument Scenario.intro_md ∅] in
  session_state first !! "vector_db" = Some (VChroma Scenario.myRAG)
  /\ session_state second !! "vector_db" = Some (VChroma Scenario.myRAG)
  /\ collections first !! "myRAG" = Some chunks
  /\ collections second !! "myRAG" = Some (chunks ++ chunks).
Proof. vm_compute. done. Qed.

(** ** One index per session *)

Lemma count_not_build (cs : list call) :
  Forall not_build cs -> count is_from_documents cs = 0.
Proof.
  induction 1 as [|c cs Hc _ IH]; simpl; [done|].
  unfold not_build in Hc. by rewrite Hc, IH.
Qed.

Lemma keeps_script_run J env inp w :
  (forall inp', keeps J (on J) (main env inp')) -> on J w -> on J (script_run env inp w).
Proof.
  intros Hmain Hw. unfold script_run.
  assert (H1 : on J (snd (main env inp (new_page w)))).
  { by apply keeps_always. }
  destruct (main env inp (new_page w)) as [[[]|[|msg]] w'] eqn:Hrun; simpl in *; try done.
  apply keeps_always; [done|]. exact H1.
Qed.

Section OneIndex.

Variable env : Env.

Lemma live_main_build E db base k e : keeps (live db base) E (main_build env k e).
Proof.
  intros _ w [Hdb Hsent]. unfold main_build, bind, ss_get. rewrite Hdb. simpl.
  by split.
Qed.

Lemma live_main_delete inp db base :
  keeps (live db base) (on (live_unless_reload inp db base))
        (main_delete env (delete_button inp)).
Proof.
  intros _ w [Hdb Hsent]. unfold main_delete.
  destruct (delete_button inp) eqn:Hreload; simpl; [|by split].
  unfold bind at 1, ss_get. rewrite Hdb. simpl.
  assert (Hsent' : sent_since base not_build (session_state w) (collections w)
                     (calls w ++ [delete_collection_call (collection_name db)])).
  { by apply sent_since_call. }
  unfold delete_collection. run_script.
  destruct (delete_error env (collection_name db)); simpl;
    (split; [exact Hsent'|]); unfold delete_button in *; congruence.
Qed.

Lemma live_main inp db base :
  keeps (live db base) (on (live_unless_reload inp db base)) (main env inp).
Proof.
  apply keeps_main.
  - intros key v Hin ss cs c [Hdb Hsent] Hnone. split; [|done].
    rewrite lookup_insert_ne; [done|]. intros ->. congruence.
  - intros k e. apply live_main_build.
  - apply live_main_delete.
  - intros m. apply keeps_main_chat.
    + intros v ss cs c [Hdb Hsent]. split; [|done]. by rewrite lookup_insert_ne.
    + intros c Hc ss cs cl [Hdb Hsent]. split; [done|].
      apply sent_since_call; [|done]. by destruct c.
Qed.

Lemma main_one_collection inp : keeps one_collection (on one_collection) (main env inp).
Proof.
  apply keeps_main.
  - by intros ? ? ? ? ? ? ?.
  - intros k e. apply keeps_main_build; try by intros ? ? ? ? ?.
    intros docs ss cs c H. unfold one_collection in *. rewrite dom_insert_L.
    by apply union_subseteq.
  - apply keeps_main_delete; try by intros ? ? ? ? ?.
    intros name ss cs c H. unfold one_collection in *. rewrite dom_delete_L.
    intros x Hx. apply H. by apply elem_of_difference in Hx as [Hx _].
  - intros m. apply keeps_main_chat; [by intros ? ? ? ? ?|by intros ? ? ? ? ? ?].
Qed.

(** With a live handle, a script run sends no build request, and keeps the
    handle unless the reload button was pressed. *)
Lemma main_live inp w db :
  session_state w !! "vector_db" = Some (VChroma db) ->
  Forall not_build (issued (main env inp) w)
  /\ (delete_button inp = false ->
      session_state (snd (main env inp w)) !! "vector_db" = Some (VChroma db)).
Proof.
  intros Hdb.
  assert (Hw : on (live db (calls w)) w).
  { split; [done|]. exists []. by rewrite app_nil_r. }
  pose proof (live_main inp db (calls w)) as Hmain.
  assert (Hend : on (live_unless_reload inp db (calls w)) (snd (main env inp w))).
  { assert (Hweak : forall w', on (live db (calls w)) w' ->
                               on (live_unless_reload inp db (calls w)) w').
    { intros w' [H1 H2]. by split. }
    specialize (Hmain Hweak w Hw).
    destruct (main env inp w) as [[[]|e] w']; simpl; [by apply Hweak|done]. }
  destruct Hend as [Hsent Hkept]. split; [|done].
  by apply (sent_since_issued (calls w) not_build (main env inp) w eq_refl).
Qed.

End OneIndex.

Lemma lifetime_keeps J runs w :
  (forall env inp, keeps J (on J) (main env inp)) -> on J w -> on J (lifetime runs w).
Proof.
  intros Hmain. revert w. unfold lifetime.
  induction runs as [|[env inp] runs IH]; intros w Hw; simpl; [done|].
  apply IH. by apply keeps_script_run.
Qed.

Lemma script_run_live env inp w db base :
  delete_button inp = false ->
  on (live db base) w -> on (live db base) (script_run env inp w).
Proof.
  intros Hreload Hw.
  assert (Hstep : forall inp' w', delete_button inp' = false -> on (live db base) w' ->
                    on (live db base) (snd (main env inp' w'))).
  { intros inp' w' Hno Hw'.
    assert (Hweak : forall w0, on (live db base) w0 ->
                               on (live_unless_reload inp' db base) w0).
    { intros w0 [H1 H2]. by split. }
    pose proof (live_main env inp' db base Hweak w' Hw') as Hrun.
    destruct (main env inp' w') as [[[]|e] w'']; simpl; [done|].
    destruct Hrun as [Hsent Hkept]. split; [by apply Hkept|done]. }
  unfold script_run.
  pose proof (Hstep inp (new_page w) Hreload Hw) as H1.
  destruct (main env inp (new_page w)) as [[[]|[|msg]] w'] eqn:Hrun; simpl in *; try done.
  by apply (Hstep (without_triggers inp) (new_page w')).
Qed.

Lemma lifetime_live runs w db base :
  Forall (fun run => delete_button (snd run) = false) runs ->
  on (live db base) w -> on (live db base) (lifetime runs w).
Proof.
  intros Hruns. revert w. unfold lifetime.
  induction Hruns as [|[env inp] runs Hrun _ IH]; intros w Hw; simpl; [done|].
  apply IH. by apply script_run_live.
Qed.

(** C8: a session never holds more than one index.  Along any sequence of
    script runs from a fresh session the store holds at most one collection,
    and it is the one the handle names.  While the session holds a handle, a
    script run sends no build request and, unless the reload button was
    pressed, leaves that very handle in place; so it stays through any
    number of runs without a reload. *)
Theorem one_index_per_session runs env inp w db :
  (size (collections (lifetime runs fresh_session)) <= 1
   /\ handle_names "myRAG" (session_state (lifetime runs fresh_session)))
  /\ (session_state w !! "vector_db" = Some (VChroma db) ->
      count is_from_documents (issued (main env inp) w) = 0
      /\ (delete_button inp = false ->
          session_state (snd (main env inp w)) !! "vector_db" = Some (VChroma db))
      /\ (Forall (fun run => delete_button (snd run) = false) runs ->
          session_state (lifetime runs w) !! "vector_db" = Some (VChroma db)
          /\ count is_from_documents
               (drop (length (calls w)) (calls (lifetime runs w))) = 0)).
Proof.
  split; [split|].
  - assert (H : on one_collection (lifetime runs fresh_session)).
    { apply lifetime_keeps; [apply main_one_collection|].
      unfold on, one_collection. simpl. by rewrite dom_empty_L. }
    unfold on, one_collection in H.
    rewrite <- size_dom. etrans; [by apply subseteq_size|].
    by rewrite size_singleton.
  - apply (lifetime_keeps (fun ss _ _ => handle_names "myRAG" ss));
      [apply main_handle_names|].
    intros db' Hdb'. simpl in Hdb'. by rewrite lookup_empty in Hdb'.
  - intros Hdb. destruct (main_live env inp w db Hdb) as [Hsent Hkept].
    split; [by apply count_not_build|]. split; [done|].
    intros Hruns.
    assert (Hend : on (live db (calls w)) (lifetime runs w)).
    { apply lifetime_live; [done|]. split; [done|].
      exists []. by rewrite app_nil_r. }
    destruct Hend as [Hlive (new & Hnew & Hnone)]. split; [done|].
    rewrite Hnew, drop_length_app. by apply count_not_build.
Qed.

Lemma one_index_per_session_witness :
  let env := Scenario.with_corpus in
  let runs := [(env, Scenario.widgets false (Some "What is X?"));
               (env, Scenario.widgets false None)] in
  let inp := Scenario.widgets false (Some "What is X?") in
  let w := Scenario.opened env in
  let db := Scenario.myRAG in
  session_state w !! "vector_db" = Some (VChroma db)
  /\ count is_from_documents (issued (main env inp) w) = 0
  /\ session_state (snd (main env inp w)) !! "vector_db" = Some (VChroma db)
  /\ session_state (lifetime runs w) !! "vector_db" = Some (VChroma db)
  /\ size (collections (lifetime runs fresh_session)) <= 1.
Proof.
  intros env runs inp w db.
  destruct (one_index_per_session runs env inp w db) as [[Hsize _] Hlive].
  assert (Hdb : session_state w !! "vector_db" = Some (VChroma db)) by reflexivity.
  destruct (Hlive Hdb) as (Hnone & Hkept & Hruns).
  split; [exact Hdb|]. split; [exact Hnone|].
  split; [apply Hkept; reflexivity|].
  split; [|exact Hsize].
  apply Hruns. repeat constructor.
Defined.

(** ** Chunks *)

Section Chunker.

Import MarkdownHeaderTextSplitter.

Lemma split_lines_nonempty s : split_lines s <> [].
Proof.
  destruct s as [|c s]; simpl; [done|].
  destruct (Ascii.eqb c newline); [done|]. by destruct (split_lines s).
Qed.

Lemma join_split_lines s : join_lines (split_lines s) = s.
Proof.
  induction s as [|c s IH]; simpl; [done|].
  destruct (Ascii.eqb c newline) eqn:Hc.
  - apply Ascii.eqb_eq in Hc as ->.
    pose proof (split_lines_nonempty s) as Hne.
    destruct (split_lines s) as [|l ls]; [done|].
    simpl in *. by rewrite IH.
  - destruct (split_lines s) as [|l ls] eqn:Hs; [by destruct (split_lines_nonempty s)|].
    destruct ls as [|l' ls]; simpl in *; by rewrite <- IH.
Qed.

Lemma header_of_spec line :
  header_of headers_to_split_on line =
  if is_header_line line
  then Some (header_level line, header_key (header_level line),
             strip (snd (count_hashes line)))
  else None.
Proof.
  unfold header_of, is_header_line, header_level, header_key.
  destruct (count_hashes line) as [n rest]. simpl.
  by destruct n as [|[|[|[|[|n]]]]].
Qed.

Lemma sections_no_header meta body lines :
  Forall (fun line => is_header_line line = false) lines ->
  sections headers_to_split_on meta body lines
  = [mkDocument (join_lines (body ++ lines)) meta].
Proof.
  intros Hlines. revert body.
  induction Hlines as [|line lines Hline _ IH]; intros body; simpl.
  - by rewrite app_nil_r.
  - rewrite header_of_spec, Hline. rewrite IH. by rewrite <- app_assoc.
Qed.

Lemma split_documents_single doc :
  split_documents [doc] = split_text headers_to_split_on (page_content doc).
Proof. reflexivity. Qed.

Lemma split_documents_concat docs :
  split_documents docs
  = concat (map (fun doc => split_text headers_to_split_on (page_content doc)) docs).
Proof.
  unfold split_documents.
  assert (H : forall acc,
             foldl (fun all_sections doc =>
                      all_sections ++ split_text headers_to_split_on (page_content doc))
                   acc docs
             = acc ++ concat (map (fun doc => split_text headers_to_split_on (page_content doc))
                                  docs)).
  { induction docs as [|doc docs IH]; intros acc; simpl.
    - by rewrite app_nil_r.
    - by rewrite IH, app_assoc. }
  apply H.
Qed.

(** C5: a document none of whose lines begins with 1-4 [#] characters is
    split into exactly one chunk; its content is the whole content of the
    document and its metadata has none of the keys "Header 1" to
    "Header 4" (it is empty). *)
Theorem split_documents_no_header doc :
  Forall (fun line => is_header_line line = false) (split_lines (page_content doc)) ->
  exists chunk,
    split_documents [doc] = [chunk]
    /\ page_content chunk = page_content doc
    /\ metadata chunk = ∅
    /\ forall sep key, (sep, key) ∈ headers_to_split_on -> metadata chunk !! key = None.
Proof.
  intros Hlines. exists (mkDocument (page_content doc) ∅).
  split; [|split; [done|split; [done|]]; intros sep key _; simpl; apply lookup_empty].
  rewrite split_documents_single. unfold split_text.
  pose proof (join_split_lines (page_content doc)) as Hjoin.
  destruct (split_lines (page_content doc)) as [|line rest] eqn:Hsplit;
    [by apply split_lines_nonempty in Hsplit|].
  inversion Hlines as [|? ? Hline Hrest]; subst.
  rewrite header_of_spec, Hline.
  rewrite sections_no_header by done. simpl app. by rewrite Hjoin.
Qed.

End Chunker.

Section HeaderChain.

Import MarkdownHeaderTextSplitter.

Lemma sections_length meta body lines :
  length (sections headers_to_split_on meta body lines) = S (length (headers_of lines)).
Proof.
  revert meta body. induction lines as [|line lines IH]; intros meta body; simpl; [done|].
  rewrite header_of_spec. destruct (is_header_line line); simpl; by rewrite IH.
Qed.

Lemma level_cases level :
  1 <= level <= 4 -> level = 1 \/ level = 2 \/ level = 3 \/ level = 4.
Proof. lia. Qed.

Lemma lookup_foldr_delete (keep : string * string -> bool) (hs : list (string * string))
    (meta : gmap string string) key :
  is_Some (foldr (fun h m => if keep h then delete (snd h) m else m) meta hs !! key) ->
  is_Some (meta !! key).
Proof.
  induction hs as [|h hs IH]; simpl; [done|].
  destruct (keep h); [|done].
  intros [v Hv]. apply lookup_delete_Some in Hv as [_ Hv]. apply IH. by exists v.
Qed.

(** Entering a header turns the chain before it into the chain after it. *)
Lemma enter_chain meta seen level text :
  1 <= level <= 4 ->
  header_chain meta seen ->
  header_chain (enter headers_to_split_on level (header_key level) text meta)
               ((level, text) :: seen).
Proof.
  intros Hlevel [Hchain Hkeys]. split.
  - intros l Hl.
    pose proof (Hchain 1 ltac:(lia)) as H1. pose proof (Hchain 2 ltac:(lia)) as H2.
    pose proof (Hchain 3 ltac:(lia)) as H3. pose proof (Hchain 4 ltac:(lia)) as H4.
    unfold header_key in H1, H2, H3, H4. simpl in H1, H2, H3, H4.
    destruct (level_cases level Hlevel) as [->|[->|[->| ->]]];
      destruct (level_cases l Hl) as [->|[->|[->| ->]]];
      unfold enter, header_key; simpl;
      repeat first [ rewrite lookup_insert_eq | rewrite lookup_insert_ne by done
                   | rewrite lookup_delete_eq | rewrite lookup_delete_ne by done ];
      done.
  - intros key [v Hv]. unfold enter in Hv.
    destruct (decide (header_key level = key)) as [<-|Hne]; [by exists level|].
    rewrite lookup_insert_ne in Hv by done.
    apply Hkeys. apply mk_is_Some in Hv.
    by apply (lookup_foldr_delete _ headers_to_split_on) in Hv.
Qed.

Lemma headers_of_cons line lines :
  headers_of (line :: lines)
  = if is_header_line line
    then (header_level line, strip (snd (count_hashes line))) :: headers_of lines
    else headers_of lines.
Proof. unfold headers_of. simpl. by destruct (is_header_line line). Qed.

Lemma sections_chain meta seen body lines i chunk :
  header_chain meta seen ->
  sections headers_to_split_on meta body lines !! i = Some chunk ->
  header_chain (metadata chunk) (rev (take i (headers_of lines)) ++ seen).
Proof.
  revert meta seen body i.
  induction lines as [|line lines IH]; intros meta seen body i Hchain Hi.
  - destruct i as [|i]; simpl in *; [|done]. by simplify_eq.
  - simpl in Hi. rewrite header_of_spec in Hi. rewrite headers_of_cons.
    destruct (is_header_line line) eqn:Hline.
    + destruct i as [|i]; simpl in *; [by simplify_eq|].
      rewrite <- app_assoc. simpl.
      apply (IH _ _ _ _ (enter_chain _ _ _ _ ltac:(unfold is_header_line in Hline;
                                                  by apply bool_decide_eq_true in Hline)
                                          Hchain) Hi).
    + by apply (IH _ _ _ _ Hchain Hi).
Qed.

End HeaderChain.

Section SplitHeaders.

Import MarkdownHeaderTextSplitter.

Lemma header_chain_empty : header_chain ∅ [].
Proof.
  split.
  - intros level _. apply lookup_empty.
  - intros key [v Hv]. by rewrite lookup_empty in Hv.
Qed.

Lemma header_chain_nil meta : header_chain meta [] -> meta = ∅.
Proof.
  intros [Hchain Hkeys]. apply map_eq. intros key. rewrite lookup_empty.
  destruct (meta !! key) as [v|] eqn:Hkey; [|done].
  destruct (Hkeys key (mk_is_Some _ _ Hkey)) as (level & Hlevel & ->).
  rewrite (Hchain level Hlevel) in Hkey. done.
Qed.

(** C6: a document with N header lines is split into N chunks, and one more
    in front when it does not begin with a header line.  The metadata of the
    chunk that the i-th header opens is the header chain at that point: under
    the key of each level 1-4 the text of the nearest enclosing header of
    that level, and no other key; the chunk in front of the first header has
    no metadata.  The two-header document of the scenario gives its two
    chunks. *)
Theorem split_documents_headers doc :
  let lines := split_lines (page_content doc) in
  let headers := headers_of lines in
  let chunks := split_documents [doc] in
  length chunks = length headers + preamble lines
  /\ (forall i chunk,
        chunks !! (preamble lines + i) = Some chunk ->
        header_chain (metadata chunk) (rev (take (S i) headers)))
  /\ (preamble lines = 1 ->
      exists chunk, chunks !! 0 = Some chunk /\ metadata chunk = ∅)
  /\ split_documents [mkDocument Scenario.intro_md ∅]
     = [mkDocument "Hello world." {[ "Header 1" := "Intro" ]};
        mkDocument "More text." (<[ "Header 2" := "Details" ]> {[ "Header 1" := "Intro" ]})].
Proof.
  intros lines headers chunks. subst lines headers chunks.
  rewrite split_documents_single. unfold split_text, preamble.
  destruct (split_lines (page_content doc)) as [|line rest] eqn:Hsplit;
    [by apply split_lines_nonempty in Hsplit|].
  rewrite header_of_spec, headers_of_cons. simpl head. simpl default.
  destruct (is_header_line line) eqn:Hline.
  - assert (Hlevel : 1 <= header_level line <= 4).
    { unfold is_header_line in Hline. by apply bool_decide_eq_true in Hline. }
    split; [|split; [|split; [done|by vm_compute]]].
    + rewrite sections_length. simpl. lia.
    + intros i chunk Hi. simpl in Hi.
      apply (sections_chain _ [(header_level line, strip (snd (count_hashes line)))]) in Hi;
        [exact Hi|].
      apply enter_chain; [done|apply header_chain_empty].
  - split; [|split; [|split; [|by vm_compute]]].
    + rewrite sections_length. lia.
    + intros i chunk Hi. simpl in Hi.
      apply (sections_chain _ []) in Hi; [|apply header_chain_empty].
      by rewrite app_nil_r in Hi.
    + intros _.
      destruct (sections headers_to_split_on ∅ [line] rest !! 0) as [chunk|] eqn:Hchunk.
      * exists chunk. split; [done|].
        apply (sections_chain _ []) in Hchunk; [|apply header_chain_empty].
        by apply header_chain_nil.
      * apply lookup_ge_None in Hchunk. rewrite sections_length in Hchunk. lia.
Qed.

End SplitHeaders.

(** The scenario from the corpus directory on: [intro.md] is loaded as one
    document and split into its two chunks. *)
Example load_documents_then_split :
  let env := Scenario.with_corpus in
  exists docs,
    fst (load_documents env "/data/ub-llm/korpora/ub" fresh_session) = Ok docs
    /\ map page_content docs = [Scenario.intro_md]
    /\ split_documents docs
       = [mkDocument "Hello world." {[ "Header 1" := "Intro" ]};
          mkDocument "More text."
            (<[ "Header 2" := "Details" ]> {[ "Header 1" := "Intro" ]})].
Proof. eexists. split; [reflexivity|]. split; by vm_compute. Qed.

Lemma split_documents_no_header_witness :
  let doc := mkDocument "Hello world.
No header here." {[ "source" := "plain.md" ]} in
  exists chunk,
    split_documents [doc] = [chunk]
    /\ page_content chunk = page_content doc
    /\ metadata chunk = ∅
    /\ forall sep key, (sep, key) ∈ headers_to_split_on -> metadata chunk !! key = None.
Proof.
  apply (split_documents_no_header
           (mkDocument "Hello world.
No header here." {[ "source" := "plain.md" ]})).
  repeat constructor.
Defined.

Lemma split_documents_headers_witness :
  let doc := mkDocument "Preface
# One
a
## Two
b
# Three
c" ∅ in
  length (split_documents [doc]) = 4
  /\ (forall chunk, split_documents [doc] !! 2 = Some chunk ->
        metadata chunk !! "Header 1" = Some "One"
        /\ metadata chunk !! "Header 2" = Some "Two"
        /\ metadata chunk !! "Header 3" = None)
  /\ (forall chunk, split_documents [doc] !! 3 = Some chunk ->
        metadata chunk !! "Header 1" = Some "Three"
        /\ metadata chunk !! "Header 2" = None).
Proof.
  intros doc.
  destruct (split_documents_headers doc) as (Hlen & Hchain & Hpre & _).
  split; [exact Hlen|]. split.
  - intros chunk Hchunk. destruct (Hchain 1 chunk Hchunk) as [H _].
    split; [apply (H 1); lia|]. split; [apply (H 2); lia|apply (H 3); lia].
  - intros chunk Hchunk. destruct (Hchain 2 chunk Hchunk) as [H _].
    split; [apply (H 1); lia|apply (H 2); lia].
Defined.

(** * Further properties *)

(** ** The model registry *)

Lemma mapM_Ok {A B} (f : A -> result B) xs ys :
  mapM f xs = Ok ys <-> Forall2 (fun x y => f x = Ok y) xs ys.
Proof.
  revert ys. induction xs as [|x xs IH]; intros ys; simpl.
  - split; [intros [= <-]; constructor|by inversion 1].
  - destruct (f x) as [y|e] eqn:Hx.
    + destruct (mapM f xs) as [ys'|e] eqn:Hxs.
      * split.
        -- intros [= <-]. constructor; [done|]. by apply IH.
        -- inversion 1 as [|? y' ? ys'' Hy Hrest]; subst.
           apply IH in Hrest. congruence.
      * split; [done|].
        inversion 1 as [|? y' ? ys'' Hy Hrest]; subst.
        apply IH in Hrest. congruence.
    + split; [done|]. inversion 1; congruence.
Qed.

Lemma extract_model_names_raises models_info e :
  extract_model_names models_info = Raise e ->
  e = Exception "KeyError: models" \/ e = Exception "KeyError: name".
Proof.
  unfold extract_model_names.
  destruct (models_info !! "models") as [models|]; [|intros [= <-]; by left].
  induction models as [|model models IH]; simpl; [done|].
  destruct (model !! "name"); [|intros [= <-]; by right].
  destruct (mapM _ models); [done|]. intros [= <-]. by apply IH.
Qed.

(** X1: [extract_model_names] returns the names exactly when the listing has
    the key "models" and every descriptor under it has a "name": then the
    names are those, one per descriptor and in the order of the listing.
    Otherwise it raises an ordinary exception (a KeyError). *)
Theorem extract_model_names_names models_info names :
  (extract_model_names models_info = Ok names
   <-> exists models, models_info !! "models" = Some models
                      /\ Forall2 (fun model name => model !! "name" = Some name) models names)
  /\ (extract_model_names models_info = Ok names ->
      exists models, models_info !! "models" = Some models
                     /\ length names = length models)
  /\ (forall e, extract_model_names models_info = Raise e ->
                e = Exception "KeyError: models" \/ e = Exception "KeyError: name").
Proof.
  assert (Hiff : forall models : list (gmap string string),
            mapM (fun model => match model !! "name" with
                               | Some name => Ok name
                               | None => Raise (Exception "KeyError: name")
                               end) models = Ok names
            <-> Forall2 (fun model name => model !! "name" = Some name) models names).
  { intros models. rewrite mapM_Ok.
    split; intros H; eapply Forall2_impl; try exact H; simpl.
    - intros model name Hn. destruct (model !! "name"); congruence.
    - intros model name ->. done. }
  split; [|split]; [| |intros e; apply extract_model_names_raises];
    unfold extract_model_names;
    destruct (models_info !! "models") as [models|] eqn:Hmodels.
  - rewrite Hiff. split; [intros H; by exists models|].
    intros (models' & [= <-] & H). done.
  - split; [done|]. by intros (models & [=] & _).
  - intros H%Hiff. exists models. split; [done|]. symmetry. by eapply Forall2_length.
  - done.
Qed.

(** ** Answering *)

Section AnsweringMore.

Variable env : Env.

(** X2: [process_question] leaves the session state, the store and the page
    as they are.  It returns a reply exactly when the similarity search
    returned and the chat model replied to the prompt built from its result,
    and the reply is returned unchanged; when it raises, it raises the
    ordinary exception of the service that failed, with that service's
    message. *)
Theorem process_question_answer question db model w :
  let '(r, w') := process_question env question db model w in
  session_state w' = session_state w
  /\ collections w' = collections w
  /\ page w' = page w
  /\ (forall reply,
        r = Ok reply
        <-> exists ranked,
              retrieved env w db question = inr ranked
              /\ chat env model (rag_prompt env ranked question) = inr reply)
  /\ (forall e,
        r = Raise e ->
        exists msg,
          e = Exception msg
          /\ (retrieved env w db question = inl msg
              \/ exists ranked,
                   retrieved env w db question = inr ranked
                   /\ chat env model (rag_prompt env ranked question) = inl msg)).
Proof.
  rewrite process_question_unfold.
  destruct (retrieved env w db question) as [msg|ranked]; simpl.
  - repeat split; try done.
    + by intros (ranked & [=] & _).
    + intros e [= <-]. exists msg. split; [done|by left].
  - destruct (chat env model (rag_prompt env ranked question)) as [msg|reply'] eqn:Hchat;
      simpl; repeat split; try done.
    + by intros (ranked' & [= <-] & Hc); congruence.
    + intros e [= <-]. exists msg. split; [done|]. right. by exists ranked.
    + intros [= <-]. by exists ranked.
    + intros (ranked' & [= <-] & Hc). congruence.
Qed.

(** X3: the prompt sent to the chat model is the fixed instruction, the
    printed form of the (at most three) best-ranked chunks, the line
    "Question: " and the question as the user typed it: nothing in the
    context or the question is expanded again, whatever braces they hold.
    It goes to the selected model in the one generation request. *)
Theorem rag_prompt_shape question db model w ranked :
  rag_prompt env ranked question
  = instruction +:+ format_context env (take 3 ranked) +:+ "
    Question: " +:+ question +:+ "
    "
  /\ (retrieved env w db question = inr ranked ->
      filter (fun c => is_chat_generate c = true)
             (issued (process_question env question db model) w)
      = [chat_generate model
           (instruction +:+ format_context env (take 3 ranked) +:+ "
    Question: " +:+ question +:+ "
    ")]).
Proof.
  assert (Hshape : rag_prompt env ranked question
                   = instruction +:+ format_context env (take 3 ranked) +:+ "
    Question: " +:+ question +:+ "
    ") by reflexivity.
  split; [exact Hshape|].
  intros Hr. rewrite process_question_issued, Hr, <- Hshape. reflexivity.
Qed.

End AnsweringMore.

(** ** The chat turn, all cases *)

Section ChatTurnMore.

Variable env : Env.



End ChatTurnMore.

(** ** The chat history *)

Lemma for_each_message_elements (l : list ChatMessage) w :
  for_each l (fun message =>
      let avatar := if String.eqb (role message) "assistant" then "🤖" else "😎" in
      st_write (chat_message (role message) avatar) ;;
      st_write (markdown (content message))) w
  = (Ok tt, mkWorld (session_state w) (collections w)
                    (page w ++ history_elements l) (calls w)).
Proof.
  revert w. induction l as [|message l IH]; intros w; simpl.
  - unfold ret, history_elements. simpl. rewrite app_nil_r. by destruct w.
  - unfold bind at 1. unfold bind at 1, st_write at 1 2. simpl.
    rewrite IH. simpl. unfold history_elements. simpl.
    by rewrite <- !app_assoc.
Qed.

Lemma main_history_list w l :
  session_state w !! "messages" = Some (VList l) ->
  main_history w
  = (Ok tt, mkWorld (session_state w) (collections w)
                    (page w ++ history_elements l) (calls w)).
Proof.
  intros Hmsg. unfold main_history, bind, ss_get. rewrite Hmsg.
  apply for_each_message_elements.
Qed.

(** X6: [main_history] draws the transcript in its order, for each message
    the chat bubble of its role (the robot avatar for the assistant, the
    other one for everybody else) and then its content, two elements a
    message, and changes nothing else; without a transcript in the session
    state it raises. *)
Theorem main_history_draws w :
  main_history w
  = match session_state w !! "messages" with
    | Some (VList l) =>
        (Ok tt, mkWorld (session_state w) (collections w)
                        (page w ++ history_elements l) (calls w))
    | Some _ => (Raise (Exception "TypeError: enumerate"), w)
    | None => (Raise (Exception "KeyError: messages"), w)
    end
  /\ forall l, length (history_elements l) = 2 * length l
               /\ omap (fun e => match e with markdown body => Some body | _ => None end)
                       (history_elements l)
                  = map content l.
Proof.
  split.
  - destruct (session_state w !! "messages") as [[|b|l|db]|] eqn:Hmsg;
      try (unfold main_history, bind, ss_get; by rewrite Hmsg).
    by apply main_history_list.
  - intros l. induction l as [|message l [IHlen IHmap]]; [done|].
    split.
    + unfold history_elements in *. simpl in *. lia.
    + change (map content (message :: l)) with (content message :: map content l).
      rewrite <- IHmap. reflexivity.
Qed.

(** ** What a session keeps *)

Section ComponentsMore.

Variable env : Env.
Variable J : gmap string value -> gmap string (list Document) -> list call -> Prop.

Lemma keeps_main_delete_keys E delete_collection :
  keeps_pop_of J reload_keys -> keeps_drop J ->
  (forall name, keeps_call J (delete_collection_call name)) ->
  keeps J E (main_delete env delete_collection).
Proof.
  intros Hpop Hdrop Hcall. unfold main_delete.
  repeat keeps_step; try apply Hdrop; try apply Hcall;
    apply Hpop; unfold reload_keys; rewrite !elem_of_cons; tauto.
Qed.

Lemma keeps_main_chat_append E prompt selected_model :
  (forall E' message, chat_role message -> keeps J E' (messages_append message)) ->
  (forall c, is_similarity_search c || is_chat_generate c = true -> keeps_call J c) ->
  keeps J E (main_chat env prompt selected_model).
Proof.
  intros Happend Hcall. unfold main_chat.
  destruct prompt as [[|c s]|];
    repeat first [ apply Happend; unfold chat_role; simpl; tauto
                 | by apply keeps_process_question
                 | keeps_step ].
Qed.

End ComponentsMore.

Lemma extends_transcript_append l E message :
  chat_role message -> keeps (extends_transcript l) E (messages_append message).
Proof.
  intros Hrole HE w (new & Hmsg & Hnew).
  unfold messages_append, bind, ss_get. rewrite Hmsg. simpl.
  exists (new ++ [message]). simpl. rewrite lookup_insert_eq, app_assoc.
  split; [done|]. apply Forall_app. split; [done|]. by constructor.
Qed.

Lemma main_extends_transcript env inp l :
  keeps (extends_transcript l) (on (extends_transcript l)) (main env inp).
Proof.
  assert (Hins : forall key v ss, key <> "messages" ->
            forall cs c, extends_transcript l ss cs c ->
                         extends_transcript l (<[key := v]> ss) cs c).
  { intros key v ss Hkey cs c (new & Hmsg & Hnew). exists new.
    by rewrite lookup_insert_ne. }
  assert (Hcall : forall c, keeps_call (extends_transcript l) c) by (by intros ? ? ? ? ?).
  apply keeps_main.
  - intros key v Hin ss cs c HJ Hnone.
    apply Hins; [|done]. intros ->. destruct HJ as (new & Hmsg & _). congruence.
  - intros k e. apply keeps_main_build; try (intros; apply Hcall).
    + by intros ? ? ? ? ?.
    + intros model ss cs c HJ. by apply Hins.
  - apply keeps_main_delete_keys; [| by intros ? ? ? ? ? |intros; apply Hcall].
    intros key Hkey ss cs c (new & Hmsg & Hnew). exists new.
    rewrite lookup_delete_ne; [done|]. intros ->.
    unfold reload_keys in Hkey. rewrite !elem_of_cons, elem_of_nil in Hkey.
    by destruct Hkey as [?|[?|[?|[]]]].
  - intros m. apply keeps_main_chat_append; [|intros; apply Hcall].
    intros E' message Hrole. by apply extends_transcript_append.
Qed.

(** X7: the transcript only grows.  Over any sequence of script runs, with
    whatever widgets are used (the reload button too) and whatever the
    services answer, the messages a session had are still there, in place
    and unchanged, and what came after them are messages of role "user" or
    "assistant". *)
Theorem transcript_only_grows runs w l :
  session_state w !! "messages" = Some (VList l) ->
  exists new,
    session_state (lifetime runs w) !! "messages" = Some (VList (l ++ new))
    /\ Forall chat_role new.
Proof.
  intros Hmsg.
  apply (lifetime_keeps (extends_transcript l) runs w).
  - intros env inp. apply main_extends_transcript.
  - exists []. by rewrite app_nil_r.
Qed.



(** ** The corpus on disk *)

Lemma fnmatch_md name : fnmatch ".md" name = true <-> name = ".md".
Proof.
  split; [|by intros ->].
  destruct name as [|c1 [|c2 [|c3 [|c4 name]]]]; simpl; try done;
    rewrite ?andb_false_r; try done.
  intros H. apply andb_prop in H as [H1 H]. apply andb_prop in H as [H2 H].
  apply andb_prop in H as [H3 _].
  apply (proj1 (Ascii.eqb_eq "."%char c1)) in H1 as <-.
  apply (proj1 (Ascii.eqb_eq "m"%char c2)) in H2 as <-.
  by apply (proj1 (Ascii.eqb_eq "d"%char c3)) in H3 as <-.
Qed.

Lemma fnmatch_star_md name :
  fnmatch "*.md" name = true <-> exists stem, name = stem +:+ ".md".
Proof.
  induction name as [|c name IH].
  - split; [done|]. intros ([|c stem] & H); simpl in H; done.
  - change (fnmatch "*.md" (String c name))
      with (fnmatch ".md" (String c name) || fnmatch "*.md" name).
    rewrite orb_true_iff, fnmatch_md, IH. split.
    + intros [->|[stem ->]]; [by exists ""|by exists (String c stem)].
    + intros ([|c' stem] & H).
      * left. exact H.
      * right. exists stem.
        change (String c name = String c' (stem +:+ ".md")) in H. by injection H.
Qed.

(** X9: which files of a directory [load_documents] reads: exactly those
    whose name ends in ".md" and does not begin with a dot; so a file named
    just ".md" is not read. *)
Theorem markdown_files_spec (entries : list (string * string)) entry :
  (entry ∈ markdown_files entries
   <-> entry ∈ entries
       /\ (exists stem, fst entry = stem +:+ ".md")
       /\ ~ (exists rest, fst entry = String "."%char rest))
  /\ (".md", snd entry) ∉ markdown_files entries.
Proof.
  assert (Hvisible : forall name,
            is_visible name = true <-> ~ (exists rest, name = String "."%char rest)).
  { intros [|c name]; simpl.
    - split; [|done]. by intros _ [rest H].
    - destruct (Ascii.ascii_dec c "."%char) as [->|Hc].
      + split; [done|]. intros H. destruct H. by exists name.
      + split.
        * intros _ [rest [= -> _]]. done.
        * intros _. destruct c as [[] [] [] [] [] [] [] []]; try done. }
  unfold markdown_files. split.
  - rewrite list_elem_of_filter.
    change (glob_match "./*.md" (fst entry)) with (fnmatch "*.md" (fst entry)).
    rewrite fnmatch_star_md, Hvisible. tauto.
  - rewrite list_elem_of_filter. simpl. intros [[_ H] _]. done.
Qed.

Section LoadingMore.

Variable env : Env.

Lemma loaded_markdown_files path (entries : list (string * string)) :
  concat (map (fun item =>
                 if is_visible (fst item)
                 then UnstructuredMarkdownLoader env (path +:+ "/" +:+ fst item) (snd item)
                 else [])
              (filter (fun entry => glob_match "./*.md" (fst entry) = true) entries))
  = map (loaded env path) (markdown_files entries).
Proof.
  unfold markdown_files.
  induction entries as [|entry entries IH]; [done|].
  rewrite !filter_cons.
  destruct (glob_match "./*.md" (fst entry)) eqn:Hglob;
    destruct (is_visible (fst entry)) eqn:Hvisible;
    repeat case_decide; try tauto; try (destruct_and?; congruence);
    cbn [map concat]; rewrite ?Hvisible, IH; done.
Qed.

Lemma load_documents_unfold path w :
  load_documents env path w
  = (match directory env path with
     | inl msg => Raise (Exception msg)
     | inr entries => Ok (map (loaded env path) (markdown_files entries))
     end,
     mkWorld (session_state w) (collections w) (page w)
             (calls w ++ [directory_load path "./*.md"])).
Proof.
  unfold load_documents, DirectoryLoader_load, issue, lift, ret, bind.
  cbn -[glob_match filter is_visible].
  destruct (directory env path) as [msg|entries]; cbn -[glob_match filter is_visible];
    [done|].
  by rewrite loaded_markdown_files.
Qed.

(** X10: [load_documents] asks for the directory once and makes one
    document of every visible file directly under it whose name matches
    [./*.md], in the order of the listing, with the text the loader extracts
    as content and the file's path as the only metadata ("source"); the other
    files are skipped silently.  When the directory cannot be read it raises
    that error.  In no case does it touch the session, the store or the
    page. *)
Theorem load_documents_files path w :
  let '(r, w') := load_documents env path w in
  session_state w' = session_state w /\ collections w' = collections w
  /\ page w' = page w
  /\ calls w' = calls w ++ [directory_load path "./*.md"]
  /\ match directory env path with
     | inl msg => r = Raise (Exception msg)
     | inr entries =>
         exists docs,
           r = Ok docs
           /\ length docs = length (markdown_files entries)
           /\ map page_content docs
              = map (fun entry => unstructured_text env (snd entry)) (markdown_files entries)
           /\ map metadata docs
              = map (fun entry => {[ "source" := path +:+ "/" +:+ fst entry ]})
                    (markdown_files entries)
           /\ Forall (fun entry => entry ∈ entries /\ exists stem, fst entry = stem +:+ ".md")
                     (markdown_files entries)
     end.
Proof.
  rewrite load_documents_unfold. simpl.
  split; [done|]. split; [done|]. split; [done|]. split; [done|].
  destruct (directory env path) as [msg|entries]; [done|].
  exists (map (loaded env path) (markdown_files entries)).
  split; [done|]. split; [by rewrite length_map|].
  split; [by rewrite <- list_fmap_compose|]. split; [by rewrite <- list_fmap_compose|].
  apply Forall_forall. intros entry Hentry. unfold markdown_files in Hentry.
  apply list_elem_of_filter in Hentry as [[Hglob _] Hin]. split; [done|].
  by apply fnmatch_star_md.
Qed.

End LoadingMore.

(** ** A script run, step by step *)

Lemma ss_setdefault_unfold key v w :
  ss_setdefault key v w = (Ok tt, set_session_state (with_default key v) w).
Proof.
  unfold ss_setdefault, bind, ss_contains, when, with_default, set_session_state, ss_set.
  simpl. case_bool_decide; simpl; [|done]. by destruct w.
Qed.

Section ScriptRun.

Variable env : Env.

Lemma main_unfold inp w :
  main env inp w
  = match os_listdir env with
    | inl msg => (Raise (Exception msg), after_header w)
    | inr korpora_list =>
        match ollama_list env with
        | inl msg => (Raise (Exception msg), after_header w)
        | inr models_info =>
            match extract_model_names models_info with
            | Raise e => (Raise e, after_header w)
            | Ok models =>
                (main_build env (selected korpora_list (korpus_select inp))
                                (selected models (embedding_select inp)) ;;
                 main_delete env (delete_button inp) ;;
                 main_history ;;
                 main_chat env (chat_input inp) (selected models (model_select inp)))
                  (set_session_state initialised (after_header w))
            end
        end
    end.
Proof.
  unfold main. unfold bind at 1, st_write at 1.
  unfold bind at 1, lift at 1.
  destruct (os_listdir env) as [msg|korpora_list]; simpl of_sum; cbv iota beta; [done|].
  unfold bind at 1, lift at 1.
  destruct (ollama_list env) as [msg|models_info]; simpl of_sum; cbv iota beta; [done|].
  unfold bind at 1, lift at 1.
  destruct (extract_model_names models_info) as [models|e]; cbv iota beta; [|done].
  unfold bind at 1. rewrite ss_setdefault_unfold.
  unfold bind at 1. rewrite ss_setdefault_unfold.
  unfold bind at 1. rewrite ss_setdefault_unfold.
  reflexivity.
Qed.

End ScriptRun.

Lemma with_default_present key v ss :
  is_Some (ss !! key) -> with_default key v ss = ss.
Proof. intros H. unfold with_default. by rewrite bool_decide_eq_true_2. Qed.

Lemma with_default_lookup key v ss :
  with_default key v ss !! key = Some (default v (ss !! key)).
Proof.
  unfold with_default. case_bool_decide as H.
  - by destruct H as [x ->].
  - apply eq_None_not_Some in H. by rewrite H, lookup_insert_eq.
Qed.

Lemma with_default_lookup_ne key key' v ss :
  key <> key' -> with_default key v ss !! key' = ss !! key'.
Proof.
  intros Hne. unfold with_default. case_bool_decide; [done|]. by rewrite lookup_insert_ne.
Qed.

Lemma initialised_lookup ss :
  initialised ss !! "messages" = Some (default (VList []) (ss !! "messages"))
  /\ initialised ss !! "vector_db" = Some (default VNone (ss !! "vector_db"))
  /\ initialised ss !! "use_sample" = Some (default (VBool false) (ss !! "use_sample")).
Proof.
  unfold initialised. split; [|split].
  - rewrite !with_default_lookup_ne by done. apply with_default_lookup.
  - rewrite with_default_lookup_ne by done. rewrite with_default_lookup.
    by rewrite with_default_lookup_ne.
  - rewrite with_default_lookup. by rewrite !with_default_lookup_ne.
Qed.

Lemma initialised_present ss :
  is_Some (ss !! "messages") -> is_Some (ss !! "vector_db") ->
  is_Some (ss !! "use_sample") -> initialised ss = ss.
Proof.
  intros H1 H2 H3. unfold initialised.
  rewrite (with_default_present "messages") by done.
  rewrite (with_default_present "vector_db") by done.
  by rewrite with_default_present.
Qed.

Section ScriptRunMore.

Variable env : Env.

(** X11: when the corpora root cannot be listed, the model service cannot
    be reached or its listing lacks a name, [main] raises that error right
    after drawing its header: the session state is not even initialised,
    the store is untouched and no request has been sent. *)
Theorem main_services_down inp w e :
  (exists msg, os_listdir env = inl msg /\ e = Exception msg)
  \/ (exists korpora msg,
        os_listdir env = inr korpora /\ ollama_list env = inl msg /\ e = Exception msg)
  \/ (exists korpora models_info,
        os_listdir env = inr korpora /\ ollama_list env = inr models_info
        /\ extract_model_names models_info = Raise e) ->
  main env inp w = (Raise e, after_header w)
  /\ session_state (snd (main env inp w)) = session_state w
  /\ collections (snd (main env inp w)) = collections w
  /\ calls (snd (main env inp w)) = calls w
  /\ e <> RerunException.
Proof.
  intros Hdown.
  assert (Hmain : main env inp w = (Raise e, after_header w) /\ e <> RerunException).
  { rewrite main_unfold.
    destruct Hdown as [(msg & -> & ->)|[(korpora & msg & -> & -> & ->)
                                       |(korpora & info & -> & -> & Hraise)]];
      [done|done|].
    rewrite Hraise. split; [done|].
    by destruct (extract_model_names_raises _ _ Hraise) as [-> | ->]. }
  destruct Hmain as [-> Hne]. done.
Qed.

Lemma main_build_live korpus model w db :
  session_state w !! "vector_db" = Some (VChroma db) ->
  main_build env korpus model w = (Ok tt, w).
Proof.
  intros Hdb. unfold main_build, bind, ss_get. rewrite Hdb. reflexivity.
Qed.

Lemma main_chat_idle selected_model w v :
  session_state w !! "vector_db" = Some v ->
  main_chat env None selected_model w
  = if is_none v
    then (Ok tt, mkWorld (session_state w) (collections w)
                   (page w ++ [warning "Upload a PDF file or use the sample PDF to begin chat..."])
                   (calls w))
    else (Ok tt, w).
Proof.
  intros Hdb. unfold main_chat, bind, ss_get. rewrite Hdb. by destruct v.
Qed.

(** X12: with an empty corpora root and no index, [main] initialises the
    session state and then stops with an unbound-local error for the corpus
    name: nothing is loaded, nothing is built, and the chat is not drawn. *)
Theorem main_without_corpora inp w models_info models :
  os_listdir env = inr [] ->
  ollama_list env = inr models_info ->
  extract_model_names models_info = Ok models ->
  no_index (session_state w) ->
  main env inp w
  = (Raise (Exception "UnboundLocalError: selected_korpus"),
     set_session_state initialised (after_header w))
  /\ calls (snd (main env inp w)) = calls w
  /\ collections (snd (main env inp w)) = collections w
  /\ session_state (snd (main env inp w)) !! "vector_db" = Some VNone.
Proof.
  intros Hdir Hlist Hnames Hnone.
  assert (Hdb : initialised (session_state w) !! "vector_db" = Some VNone).
  { destruct (initialised_lookup (session_state w)) as (_ & -> & _).
    by destruct Hnone as [-> | ->]. }
  assert (Hmain : main env inp w
                  = (Raise (Exception "UnboundLocalError: selected_korpus"),
                     set_session_state initialised (after_header w))).
  { rewrite main_unfold, Hdir, Hlist, Hnames.
    unfold bind at 1. unfold main_build, bind at 1, ss_get.
    simpl session_state. rewrite Hdb. reflexivity. }
  rewrite Hmain. done.
Qed.

End ScriptRunMore.

Section Runs.

Variable env : Env.

Lemma set_session_state_id f w :
  f (session_state w) = session_state w -> set_session_state f w = w.
Proof. intros H. unfold set_session_state. rewrite H. by destruct w. Qed.

(** X13: a script run in which nothing is asked (no reload, no question) of
    a session that holds an index changes nothing: session state, store and
    requests sent are as before, whatever the services do; when the services
    answer, the page is the header followed by the transcript. *)
Theorem script_run_idle inp w db l :
  delete_button inp = false ->
  chat_input inp = None ->
  session_state w !! "vector_db" = Some (VChroma db) ->
  session_state w !! "messages" = Some (VList l) ->
  is_Some (session_state w !! "use_sample") ->
  session_state (script_run env inp w) = session_state w
  /\ collections (script_run env inp w) = collections w
  /\ calls (script_run env inp w) = calls w
  /\ (forall korpora models_info models,
        os_listdir env = inr korpora -> ollama_list env = inr models_info ->
        extract_model_names models_info = Ok models ->
        page (script_run env inp w)
        = subheader "🧠 Ollama UB RAG playground" :: history_elements l).
Proof.
  intros Hreload Hprompt Hdb Hmsg Hsample.
  assert (Hrun : script_run env inp w
                 = match os_listdir env with
                   | inl _ => after_header (new_page w)
                   | inr _ =>
                       match ollama_list env with
                       | inl _ => after_header (new_page w)
                       | inr models_info =>
                           match extract_model_names models_info with
                           | Raise _ => after_header (new_page w)
                           | Ok _ =>
                               mkWorld (session_state w) (collections w)
                                 (subheader "🧠 Ollama UB RAG playground"
                                    :: history_elements l)
                                 (calls w)
                           end
                       end
                   end).
  { unfold script_run. rewrite main_unfold.
    destruct (os_listdir env) as [msg|korpora]; [done|].
    destruct (ollama_list env) as [msg|models_info]; [done|].
    destruct (extract_model_names models_info) as [models|e] eqn:Hnames.
    - rewrite set_session_state_id
        by (apply initialised_present; simpl; rewrite ?Hdb, ?Hmsg; done).
      unfold bind at 1. rewrite (main_build_live _ _ _ _ db) by done.
      rewrite Hreload. unfold bind at 1, main_delete at 1, when, ret.
      unfold bind at 1. rewrite (main_history_list _ l) by done.
      by rewrite Hprompt, (main_chat_idle _ _ _ (VChroma db)).
    - by destruct (extract_model_names_raises _ _ Hnames) as [-> | ->]. }
  rewrite Hrun.
  destruct (os_listdir env) as [msg|korpora]; [by repeat split|].
  destruct (ollama_list env) as [msg|models_info]; [by repeat split|].
  destruct (extract_model_names models_info) as [models|e] eqn:Hnames.
  - by repeat split.
  - split; [done|]. split; [done|]. split; [done|].
    intros korpora' info' models' _ [= <-] Hok. congruence.
Qed.

Lemma main_build_first_eq korpus model entries w :
  session_state w !! "vector_db" = Some VNone ->
  directory env (korpora_path +:+ korpus) = inr entries ->
  markdown_files entries <> [] ->
  let path := korpora_path +:+ korpus in
  let chunks := split_documents (map (loaded env path) (markdown_files entries)) in
  let sent := calls w ++ [directory_load path "./*.md"; from_documents chunks model "myRAG"] in
  let created := <["myRAG" := default [] (collections w !! "myRAG")]> (collections w) in
  main_build env (Some korpus) (Some model) w
  = match embed_error env model chunks with
    | Some msg =>
        (Raise (Exception msg), mkWorld (session_state w) created (page w) sent)
    | None =>
        (Ok tt,
         mkWorld (<["vector_db" := VChroma (mkChroma "myRAG" model)]> (session_state w))
                 (<["myRAG" := default [] (created !! "myRAG") ++ chunks]> created)
                 (page w) sent)
    end.
Proof.
  intros Hdb Hdir Hfiles path chunks sent created. subst path chunks sent created.
  unfold main_build. unfold bind at 1, ss_get at 1. rewrite Hdb.
  unfold is_none, when, local, ret at 1. unfold bind at 1. unfold bind at 1.
  rewrite load_documents_unfold, Hdir.
  destruct (map (loaded env (korpora_path +:+ korpus)) (markdown_files entries))
    as [|doc docs] eqn:Hdocs.
  { apply (f_equal length) in Hdocs. rewrite length_map in Hdocs.
    by destruct (markdown_files entries). }
  unfold nonempty. unfold bind at 1, ss_get at 1. simpl session_state. rewrite Hdb.
  unfold is_none, ret at 1. unfold bind at 1. unfold Chroma_from_documents.
  run_script.
  destruct (embed_error env model (split_documents (doc :: docs))) as [msg|]; simpl;
    by rewrite <- app_assoc.
Qed.

(** X14: the first build.  With no handle in the session, a corpus picked
    and an embedding model selected, [main_build] loads the corpus
    directory, splits the documents and asks once for the collection "myRAG"
    to be built from all chunks with the selected embedding model.  When the
    embedding succeeds it stores the handle of "myRAG" in the session; when
    it fails the error is raised and the session still has no handle, so the
    next script run tries again. *)
Theorem main_build_first korpus model entries w :
  session_state w !! "vector_db" = Some VNone ->
  directory env (korpora_path +:+ korpus) = inr entries ->
  markdown_files entries <> [] ->
  let path := korpora_path +:+ korpus in
  let chunks := split_documents (map (loaded env path) (markdown_files entries)) in
  let '(r, w') := main_build env (Some korpus) (Some model) w in
  calls w' = calls w ++ [directory_load path "./*.md"; from_documents chunks model "myRAG"]
  /\ page w' = page w
  /\ match embed_error env model chunks with
     | None =>
         r = Ok tt
         /\ session_state w'
            = <["vector_db" := VChroma (mkChroma "myRAG" model)]> (session_state w)
         /\ is_Some (collections w' !! "myRAG")
     | Some msg =>
         r = Raise (Exception msg)
         /\ session_state w' = session_state w
     end.
Proof.
  intros Hdb Hdir Hfiles path chunks. subst path chunks.
  rewrite (main_build_first_eq korpus model entries w Hdb Hdir Hfiles).
  destruct (embed_error env model _) as [msg|]; simpl; [done|].
  by rewrite lookup_insert_eq.
Qed.

Lemma main_delete_reload w db :
  session_state w !! "vector_db" = Some (VChroma db) ->
  delete_error env (collection_name db) = None ->
  main_delete env true w
  = (Raise RerunException,
     mkWorld (delete "vector_db" (delete "file_upload" (delete "pdf_pages" (session_state w))))
             (delete (collection_name db) (collections w))
             (page w ++ [success "Collection and temporary files deleted successfully."])
             (calls w ++ [delete_collection_call (collection_name db)])).
Proof.
  intros Hdb Hok. unfold main_delete, when. unfold bind at 1, ss_get at 1. rewrite Hdb.
  unfold delete_vector_db, delete_collection. run_script. rewrite Hok. reflexivity.
Qed.

(** X16: reload, from click to rebuilt index.  When the session holds a
    handle, the services answer, the store drops the collection and the
    corpus picked has markdown files that embed, a script run with the
    reload button pressed ends with a new handle for "myRAG" built with the
    embedding model now selected, the transcript as it was, and the page
    showing header and transcript; it has asked, in this order, for the
    collection to be dropped, the directory to be loaded and the collection
    to be built, and for nothing else: a question typed together with the
    click is not answered.  If the old handle named "myRAG", the collection
    then holds the chunks of the corpus as it is now and nothing of before. *)
Theorem script_run_reload inp w db l korpora models_info models korpus model entries :
  delete_button inp = true ->
  session_state w !! "vector_db" = Some (VChroma db) ->
  session_state w !! "messages" = Some (VList l) ->
  os_listdir env = inr korpora ->
  ollama_list env = inr models_info ->
  extract_model_names models_info = Ok models ->
  delete_error env (collection_name db) = None ->
  selected korpora (korpus_select inp) = Some korpus ->
  selected models (embedding_select inp) = Some model ->
  directory env (korpora_path +:+ korpus) = inr entries ->
  markdown_files entries <> [] ->
  let path := korpora_path +:+ korpus in
  let chunks := split_documents (map (loaded env path) (markdown_files entries)) in
  embed_error env model chunks = None ->
  let w' := script_run env inp w in
  session_state w' !! "vector_db" = Some (VChroma (mkChroma "myRAG" model))
  /\ session_state w' !! "messages" = Some (VList l)
  /\ calls w' = calls w ++ [delete_collection_call (collection_name db);
                            directory_load path "./*.md";
                            from_documents chunks model "myRAG"]
  /\ page w' = subheader "🧠 Ollama UB RAG playground" :: history_elements l
  /\ (collection_name db = "myRAG" -> collections w' !! "myRAG" = Some chunks).
Proof.
  intros Hreload Hdb Hmsg Hdir Hlist Hnames Hdrop Hkorpus Hmodel Hentries Hfiles
         path chunks Hembed w'.
  assert (Hm1 : initialised (session_state w) !! "messages" = Some (VList l)).
  { destruct (initialised_lookup (session_state w)) as (-> & _). by rewrite Hmsg. }
  assert (Hd1 : initialised (session_state w) !! "vector_db" = Some (VChroma db)).
  { destruct (initialised_lookup (session_state w)) as (_ & -> & _). by rewrite Hdb. }
  remember (delete "vector_db"
              (delete "file_upload" (delete "pdf_pages" (initialised (session_state w)))))
    as ss2 eqn:Hss2.
  assert (Hm2 : ss2 !! "messages" = Some (VList l)).
  { subst ss2. by rewrite !lookup_delete_ne. }
  assert (Hd2 : ss2 !! "vector_db" = None) by (subst ss2; apply lookup_delete_eq).
  assert (Hm3 : initialised ss2 !! "messages" = Some (VList l)).
  { destruct (initialised_lookup ss2) as (-> & _). by rewrite Hm2. }
  assert (Hd3 : initialised ss2 !! "vector_db" = Some VNone).
  { destruct (initialised_lookup ss2) as (_ & -> & _). by rewrite Hd2. }
  assert (Hrun : w' = mkWorld
            (<["vector_db" := VChroma (mkChroma "myRAG" model)]> (initialised ss2))
            (<["myRAG" := default []
                 (<["myRAG" := default [] (delete (collection_name db) (collections w) !! "myRAG")]>
                    (delete (collection_name db) (collections w)) !! "myRAG") ++ chunks]>
               (<["myRAG" := default [] (delete (collection_name db) (collections w) !! "myRAG")]>
                  (delete (collection_name db) (collections w))))
            (subheader "🧠 Ollama UB RAG playground" :: history_elements l)
            ((calls w ++ [delete_collection_call (collection_name db)])
               ++ [directory_load path "./*.md"; from_documents chunks model "myRAG"])).
  { subst w'. unfold script_run.
    rewrite main_unfold, Hdir, Hlist, Hnames.
    unfold bind at 1. rewrite (main_build_live _ _ _ _ db) by exact Hd1.
    rewrite Hreload. unfold bind at 1.
    rewrite (main_delete_reload _ db) by done.
    unfold new_page, after_header, set_session_state.
    cbn [session_state collections page calls snd]. rewrite <- Hss2.
    change (mkWorld ss2 (delete (collection_name db) (collections w)) []
              (calls w ++ [delete_collection_call (collection_name db)]))
      with (new_page (mkWorld ss2 (delete (collection_name db) (collections w)) []
              (calls w ++ [delete_collection_call (collection_name db)]))).
    rewrite main_unfold, Hdir, Hlist, Hnames.
    change (korpus_select (without_triggers inp)) with (korpus_select inp).
    change (embedding_select (without_triggers inp)) with (embedding_select inp).
    rewrite Hkorpus, Hmodel.
    unfold bind at 1.
    rewrite (main_build_first_eq korpus model entries) by done.
    fold path. fold chunks. rewrite Hembed.
    change (delete_button (without_triggers inp)) with false.
    unfold bind at 1, main_delete at 1, when, ret.
    unfold bind at 1. rewrite (main_history_list _ l)
      by (simpl; by rewrite lookup_insert_ne).
    change (chat_input (without_triggers inp)) with (@None string).
    rewrite (main_chat_idle _ _ _ (VChroma (mkChroma "myRAG" model)))
      by (simpl; by rewrite lookup_insert_eq).
    reflexivity. }
  rewrite Hrun. simpl.
  split; [by rewrite lookup_insert_eq|].
  split; [by rewrite lookup_insert_ne|].
  split; [by rewrite <- app_assoc|]. split; [done|].
  intros ->. by rewrite !lookup_insert_eq, lookup_delete_eq.
Qed.

End Runs.

(** ** Reruns *)

Section NoRerun.

Lemma no_rerun_bind {A B} (m : M A) (k : A -> M B) :
  no_rerun m -> (forall a, no_rerun (k a)) -> no_rerun (bind m k).
Proof.
  intros Hm Hk w. unfold bind. specialize (Hm w).
  destruct (m w) as [[a|e] w']; simpl in *; [apply Hk|].
  intros [= ->]. by destruct Hm.
Qed.

Lemma no_rerun_ret {A} (a : A) : no_rerun (ret a).
Proof. by intros w. Qed.

Lemma no_rerun_raise {A} (msg : string) : no_rerun (raise (Exception msg) : M A).
Proof. by intros w. Qed.

Lemma no_rerun_lift_sum {A} (r : string + A) : no_rerun (lift (of_sum r)).
Proof. intros w. by destruct r. Qed.

Lemma no_rerun_lift_names models_info : no_rerun (lift (extract_model_names models_info)).
Proof.
  intros w. simpl. intros H.
  by destruct (extract_model_names_raises _ _ H).
Qed.

Lemma no_rerun_local {A} (name : string) (v : option A) : no_rerun (local name v).
Proof. intros w. by destruct v. Qed.

Lemma no_rerun_when (b : bool) (m : M unit) : no_rerun m -> no_rerun (when b m).
Proof. intros Hm. destruct b; [done|apply no_rerun_ret]. Qed.

Lemma no_rerun_for_each {A} (xs : list A) (body : A -> M unit) :
  (forall x, no_rerun (body x)) -> no_rerun (for_each xs body).
Proof.
  intros Hbody. induction xs as [|x xs IH]; simpl; [apply no_rerun_ret|].
  apply no_rerun_bind; [apply Hbody|done].
Qed.

Lemma no_rerun_try_except {A} (body : M A) (handler : string -> M A) :
  no_rerun body -> (forall msg, no_rerun (handler msg)) ->
  no_rerun (try_except body handler).
Proof.
  intros Hb Hh w. unfold try_except. specialize (Hb w).
  destruct (body w) as [[a|[|msg]] w']; simpl in *; [done|done|apply Hh].
Qed.

Lemma no_rerun_total {A} (m : M A) :
  (forall w, exists a, fst (m w) = Ok a) -> no_rerun m.
Proof. intros H w. destruct (H w) as [a ->]. done. Qed.

Lemma no_rerun_ss_get key : no_rerun (ss_get key).
Proof. intros w. unfold ss_get. by destruct (session_state w !! key). Qed.

End NoRerun.

Ltac no_rerun_step :=
  lazymatch goal with
  | |- no_rerun (bind _ _) => apply no_rerun_bind; [|intros ?; cbv beta]
  | |- no_rerun (ret _) => apply no_rerun_ret
  | |- no_rerun (raise (Exception _)) => apply no_rerun_raise
  | |- no_rerun (unbound _) => apply no_rerun_raise
  | |- no_rerun (lift (of_sum _)) => apply no_rerun_lift_sum
  | |- no_rerun (lift (extract_model_names _)) => apply no_rerun_lift_names
  | |- no_rerun (local _ _) => apply no_rerun_local
  | |- no_rerun (when _ _) => apply no_rerun_when
  | |- no_rerun (for_each _ _) => apply no_rerun_for_each; intros ?; cbv beta
  | |- no_rerun (try_except _ _) => apply no_rerun_try_except; [|intros ?; cbv beta]
  | |- no_rerun (ss_get _) => apply no_rerun_ss_get
  | |- no_rerun (st_write _) => apply no_rerun_total; intros ?; by eexists
  | |- no_rerun (ss_contains _) => apply no_rerun_total; intros ?; by eexists
  | |- no_rerun (ss_set _ _) => apply no_rerun_total; intros ?; by eexists
  | |- no_rerun (ss_pop _) => apply no_rerun_total; intros ?; by eexists
  | |- no_rerun (issue _) => apply no_rerun_total; intros ?; by eexists
  | |- no_rerun collections_get => apply no_rerun_total; intros ?; by eexists
  | |- no_rerun (collections_update _) => apply no_rerun_total; intros ?; by eexists
  | |- no_rerun (ss_setdefault _ _) => unfold ss_setdefault
  | |- no_rerun (messages_append _) => unfold messages_append
  | |- no_rerun (load_documents _ _) => unfold load_documents, DirectoryLoader_load
  | |- no_rerun (Chroma_from_documents _ _ _ _) => unfold Chroma_from_documents
  | |- no_rerun (match ?x with _ => _ end) => destruct x
  | |- no_rerun (let _ := _ in _) => cbv zeta
  end.

Section RerunOnlyOnReload.

Variable env : Env.

Lemma no_rerun_process_question question db model :
  no_rerun (process_question env question db model).
Proof.
  intros w. rewrite process_question_unfold.
  destruct (retrieved env w db question); simpl; [done|].
  by destruct (chat env model _).
Qed.

Lemma no_rerun_main_build korpus model : no_rerun (main_build env korpus model).
Proof. unfold main_build. repeat no_rerun_step. Qed.

Lemma no_rerun_main_history : no_rerun main_history.
Proof. unfold main_history. repeat no_rerun_step. Qed.

Lemma no_rerun_main_chat prompt model : no_rerun (main_chat env prompt model).
Proof.
  unfold main_chat.
  destruct prompt as [[|c s]|];
    repeat first [ apply no_rerun_process_question | no_rerun_step ].
Qed.

Lemma no_rerun_main inp : delete_button inp = false -> no_rerun (main env inp).
Proof.
  intros Hreload. unfold main. rewrite Hreload.
  repeat first [ apply no_rerun_main_build | apply no_rerun_main_history
               | apply no_rerun_main_chat | no_rerun_step ].
  unfold main_delete. apply no_rerun_ret.
Qed.

(** X15: [main] asks for a rerun only when the reload button was pressed.
    So a script run without the button is one execution of [main], and the
    run that follows a reload is never itself followed by another: a reload
    costs exactly one extra execution. *)
Theorem rerun_only_on_reload inp w :
  (fst (main env inp w) = Raise RerunException -> delete_button inp = true)
  /\ (delete_button inp = false -> script_run env inp w = snd (main env inp (new_page w)))
  /\ (forall w', fst (main env (without_triggers inp) w') <> Raise RerunException).
Proof.
  split; [|split].
  - intros Hrerun. destruct (delete_button inp) eqn:Hreload; [done|].
    by destruct (no_rerun_main inp Hreload w).
  - intros Hreload. unfold script_run.
    pose proof (no_rerun_main inp Hreload (new_page w)) as Hno.
    by destruct (main env inp (new_page w)) as [[[]|[|msg]] w'].
  - intros w'. by apply no_rerun_main.
Qed.

End RerunOnlyOnReload.

(** ** Splitting several documents *)

(** X17: [split_documents] splits document by document and joins the
    results in the order of the documents; it looks at the content of a
    document only, so the metadata of the source (its path) never reaches a
    chunk: documents with the same contents give the same chunks. *)
Theorem split_documents_by_document docs1 docs2 :
  split_documents (docs1 ++ docs2) = split_documents docs1 ++ split_documents docs2
  /\ split_documents docs1 = concat (map (fun doc => split_documents [doc]) docs1)
  /\ (map page_content docs1 = map page_content docs2 ->
      split_documents docs1 = split_documents docs2).
Proof.
  split; [|split].
  - rewrite !split_documents_concat. by rewrite map_app, concat_app.
  - rewrite split_documents_concat. reflexivity.
  - intros Hsame. rewrite !split_documents_concat. f_equal.
    revert docs2 Hsame. induction docs1 as [|d1 docs1 IH]; intros [|d2 docs2] Hsame;
      simpl in *; try done.
    injection Hsame as Hd Hrest. rewrite Hd. f_equal. by apply IH.
Qed.

(** ** The first script run *)

Section FirstRun.

Variable env : Env.

(** X18: opening the page.  On a session with an empty state, when the
    services answer and the corpus picked has markdown files that embed, the
    first script run initialises the transcript to the empty list and
    "use_sample" to false, builds the index once and stores its handle; it
    sends the load and the build request and nothing else, and draws the
    header only (no warning, no chat bubble). *)
Theorem script_run_first inp w korpora models_info models korpus model entries :
  session_state w = ∅ ->
  delete_button inp = false ->
  chat_input inp = None ->
  os_listdir env = inr korpora ->
  ollama_list env = inr models_info ->
  extract_model_names models_info = Ok models ->
  selected korpora (korpus_select inp) = Some korpus ->
  selected models (embedding_select inp) = Some model ->
  directory env (korpora_path +:+ korpus) = inr entries ->
  markdown_files entries <> [] ->
  let path := korpora_path +:+ korpus in
  let chunks := split_documents (map (loaded env path) (markdown_files entries)) in
  embed_error env model chunks = None ->
  let w' := script_run env inp w in
  session_state w'
  = <["vector_db" := VChroma (mkChroma "myRAG" model)]>
      (<["use_sample" := VBool false]> (<["messages" := VList []]> ∅))
  /\ calls w' = calls w ++ [directory_load path "./*.md"; from_documents chunks model "myRAG"]
  /\ page w' = [subheader "🧠 Ollama UB RAG playground"]
  /\ collections w' !! "myRAG" = Some (default [] (collections w !! "myRAG") ++ chunks).
Proof.
  intros Hempty Hreload Hprompt Hdir Hlist Hnames Hkorpus Hmodel Hentries Hfiles
         path chunks Hembed w'.
  assert (Hinit : initialised (session_state w)
                  = <["use_sample" := VBool false]>
                      (<["vector_db" := VNone]> (<["messages" := VList []]> ∅))).
  { rewrite Hempty. reflexivity. }
  assert (Hd1 : initialised (session_state w) !! "vector_db" = Some VNone).
  { destruct (initialised_lookup (session_state w)) as (_ & -> & _).
    by rewrite Hempty, lookup_empty. }
  assert (Hm1 : initialised (session_state w) !! "messages" = Some (VList [])).
  { destruct (initialised_lookup (session_state w)) as (-> & _).
    by rewrite Hempty, lookup_empty. }
  assert (Hrun : w' = mkWorld
            (<["vector_db" := VChroma (mkChroma "myRAG" model)]>
               (initialised (session_state w)))
            (<["myRAG" := default []
                 (<["myRAG" := default [] (collections w !! "myRAG")]> (collections w)
                    !! "myRAG") ++ chunks]>
               (<["myRAG" := default [] (collections w !! "myRAG")]> (collections w)))
            [subheader "🧠 Ollama UB RAG playground"]
            (calls w ++ [directory_load path "./*.md";
                         from_documents chunks model "myRAG"])).
  { subst w'. unfold script_run.
    rewrite main_unfold, Hdir, Hlist, Hnames, Hkorpus, Hmodel.
    unfold bind at 1.
    rewrite (main_build_first_eq env korpus model entries) by done.
    fold path. fold chunks. rewrite Hembed.
    rewrite Hreload. unfold bind at 1, main_delete at 1, when, ret.
    unfold bind at 1. rewrite (main_history_list _ [])
      by (simpl; by rewrite lookup_insert_ne).
    rewrite Hprompt.
    rewrite (main_chat_idle _ _ _ (VChroma (mkChroma "myRAG" model)))
      by (simpl; by rewrite lookup_insert_eq).
    reflexivity. }
  rewrite Hrun. cbn [session_state collections page calls].
  split.
  - rewrite Hinit. apply map_eq. intros key.
    destruct (decide (key = "vector_db")) as [->|Hne].
    + by rewrite !lookup_insert_eq.
    + rewrite !(lookup_insert_ne _ "vector_db") by done.
      destruct (decide (key = "use_sample")) as [->|Hne'].
      * by rewrite !lookup_insert_eq.
      * rewrite !(lookup_insert_ne _ "use_sample") by done.
        by rewrite (lookup_insert_ne _ "vector_db").
  - split; [done|]. split; [done|]. by rewrite !lookup_insert_eq.
Qed.

End FirstRun.

(** ** The further properties on concrete sessions *)

Lemma extract_model_names_names_witness :
  extract_model_names Scenario.models = Ok ["llama3"; "nomic-embed-text"]
  /\ exists models, Scenario.models !! "models" = Some models
                    /\ length ["llama3"; "nomic-embed-text"] = length models.
Proof.
  split; [reflexivity|].
  apply (extract_model_names_names Scenario.models ["llama3"; "nomic-embed-text"]).
  reflexivity.
Defined.

Lemma process_question_answer_witness :
  let env := Scenario.chat_down in
  let w := Scenario.opened env in
  let '(r, w') := process_question env Cases.question Scenario.myRAG "llama3" w in
  r = Raise (Exception "connection refused")
  /\ exists msg,
       Exception "connection refused" = Exception msg
       /\ (retrieved env w Scenario.myRAG Cases.question = inl msg
           \/ exists ranked,
                retrieved env w Scenario.myRAG Cases.question = inr ranked
                /\ chat env "llama3" (rag_prompt env ranked Cases.question) = inl msg).
Proof.
  intros env w.
  pose proof (process_question_answer env Cases.question Scenario.myRAG "llama3" w) as H.
  destruct (process_question env Cases.question Scenario.myRAG "llama3" w) as [r w'] eqn:Hrun.
  assert (Hr : r = Raise (Exception "connection refused")).
  { change r with (fst (r, w')). rewrite <- Hrun. reflexivity. }
  split; [exact Hr|].
  destruct H as (_ & _ & _ & _ & Hraise). apply Hraise. exact Hr.
Defined.

Lemma rag_prompt_shape_witness :
  let env := Scenario.with_corpus in
  let w := Scenario.opened env in
  retrieved env w Scenario.myRAG Cases.question = inr Cases.chunks
  /\ filter (fun c => is_chat_generate c = true)
            (issued (process_question env Cases.question Scenario.myRAG "llama3") w)
     = [chat_generate "llama3"
          (instruction +:+ format_context env (take 3 Cases.chunks) +:+ "
    Question: " +:+ Cases.question +:+ "
    ")].
Proof.
  intros env w. split; [reflexivity|].
  apply (rag_prompt_shape env Cases.question Scenario.myRAG "llama3" w Cases.chunks).
  reflexivity.
Defined.


Lemma transcript_only_grows_witness :
  let env := Scenario.with_corpus in
  let w := Scenario.asked env in
  let runs := [(env, Scenario.widgets true None);
               (env, Scenario.widgets false (Some "And Y?"))] in
  let l := [user_message Cases.question; assistant_message "42"] in
  session_state w !! "messages" = Some (VList l)
  /\ exists new,
       session_state (lifetime runs w) !! "messages" = Some (VList (l ++ new))
       /\ Forall chat_role new.
Proof.
  intros env w runs l. split; [reflexivity|].
  apply (transcript_only_grows runs w l). reflexivity.
Defined.


Lemma main_services_down_witness :
  let env := Cases.ollama_down in
  let inp := Scenario.widgets false (Some Cases.question) in
  main env inp fresh_session
  = (Raise (Exception "connection refused"), after_header fresh_session)
  /\ session_state (snd (main env inp fresh_session)) = ∅.
Proof.
  intros env inp.
  destruct (main_services_down env inp fresh_session (Exception "connection refused"))
    as (Hmain & Hss & _).
  - right. left. exists ["ub"], "connection refused". repeat split; reflexivity.
  - split; [exact Hmain|exact Hss].
Defined.

Lemma main_without_corpora_witness :
  let env := Cases.no_corpora in
  let inp := Scenario.widgets false None in
  main env inp fresh_session
  = (Raise (Exception "UnboundLocalError: selected_korpus"),
     set_session_state initialised (after_header fresh_session))
  /\ calls (snd (main env inp fresh_session)) = [].
Proof.
  intros env inp.
  destruct (main_without_corpora env inp fresh_session Scenario.models
              ["llama3"; "nomic-embed-text"]) as (Hmain & Hcalls & _).
  - reflexivity.
  - reflexivity.
  - reflexivity.
  - left. reflexivity.
  - split; [exact Hmain|exact Hcalls].
Defined.

Lemma script_run_idle_witness :
  let env := Scenario.with_corpus in
  let w := Scenario.asked env in
  let inp := Scenario.widgets false None in
  session_state (script_run env inp w) = session_state w
  /\ collections (script_run env inp w) = collections w
  /\ calls (script_run env inp w) = calls w.
Proof.
  intros env w inp.
  destruct (script_run_idle env inp w Scenario.myRAG
              [user_message Cases.question; assistant_message "42"])
    as (Hss & Hcs & Hcalls & _).
  - reflexivity.
  - reflexivity.
  - reflexivity.
  - reflexivity.
  - by exists (VBool false).
  - split; [exact Hss|]. split; [exact Hcs|exact Hcalls].
Defined.

Lemma main_build_first_witness :
  let env := Cases.embedding_down in
  let w := Cases.initial in
  let '(r, w') := main_build env (Some "ub") (Some "nomic-embed-text") w in
  calls w' = [directory_load "/data/ub-llm/korpora/ub" "./*.md";
              from_documents Cases.chunks "nomic-embed-text" "myRAG"]
  /\ r = Raise (Exception "embedding failed")
  /\ session_state w' !! "vector_db" = Some VNone.
Proof.
  intros env w.
  pose proof (main_build_first env "ub" "nomic-embed-text"
                [("intro.md", Scenario.intro_md)] w) as H.
  cbv zeta in H.
  destruct (main_build env (Some "ub") (Some "nomic-embed-text") w) as [r w'].
  destruct H as (Hcalls & _ & Hr & Hss).
  - reflexivity.
  - reflexivity.
  - discriminate.
  - split; [exact Hcalls|]. split; [exact Hr|]. rewrite Hss. reflexivity.
Defined.

Lemma rerun_only_on_reload_witness :
  let env := Scenario.with_corpus in
  let inp := Scenario.widgets false (Some Cases.question) in
  script_run env inp fresh_session = snd (main env inp (new_page fresh_session)).
Proof.
  intros env inp.
  apply (rerun_only_on_reload env inp fresh_session). reflexivity.
Defined.

Lemma script_run_reload_witness :
  let env := Scenario.with_corpus in
  let w := Scenario.asked env in
  let inp := Scenario.widgets true (Some "And Y?") in
  let w' := script_run env inp w in
  session_state w' !! "vector_db" = Some (VChroma Scenario.myRAG)
  /\ session_state w' !! "messages"
     = Some (VList [user_message Cases.question; assistant_message "42"])
  /\ calls w' = calls w ++ [delete_collection_call "myRAG";
                            directory_load "/data/ub-llm/korpora/ub" "./*.md";
                            from_documents Cases.chunks "nomic-embed-text" "myRAG"]
  /\ collections w' !! "myRAG" = Some Cases.chunks.
Proof.
  intros env w inp w'.
  destruct (script_run_reload env inp w Scenario.myRAG
              [user_message Cases.question; assistant_message "42"]
              ["ub"] Scenario.models ["llama3"; "nomic-embed-text"]
              "ub" "nomic-embed-text" [("intro.md", Scenario.intro_md)])
    as (Hdb & Hmsg & Hcalls & _ & Hcs); try reflexivity.
  - discriminate.
  - split; [exact Hdb|]. split; [exact Hmsg|]. split; [exact Hcalls|].
    apply Hcs. reflexivity.
Defined.

Lemma split_documents_by_document_witness :
  let a := [mkDocument Scenario.intro_md {[ "source" := "a/intro.md" ]}] in
  let b := [mkDocument Scenario.intro_md {[ "source" := "b/intro.md" ]}] in
  a <> b /\ split_documents a = split_documents b.
Proof.
  intros a b. split.
  - intros H.
    apply (f_equal (fun l : list Document =>
                      match l with
                      | d :: _ => metadata d !! "source"
                      | [] => None
                      end)) in H.
    vm_compute in H. discriminate.
  - apply (split_documents_by_document a b). reflexivity.
Defined.

Lemma script_run_first_witness :
  let env := Scenario.with_corpus in
  let inp := Scenario.widgets false None in
  let w' := script_run env inp fresh_session in
  session_state w'
  = <["vector_db" := VChroma Scenario.myRAG]>
      (<["use_sample" := VBool false]> (<["messages" := VList []]> ∅))
  /\ calls w' = [directory_load "/data/ub-llm/korpora/ub" "./*.md";
                 from_documents Cases.chunks "nomic-embed-text" "myRAG"]
  /\ page w' = [subheader "🧠 Ollama UB RAG playground"].
Proof.
  intros env inp w'.
  destruct (script_run_first env inp fresh_session ["ub"] Scenario.models
              ["llama3"; "nomic-embed-text"] "ub" "nomic-embed-text"
              [("intro.md", Scenario.intro_md)])
    as (Hss & Hcalls & Hpage & _); try reflexivity.
  - discriminate.
  - split; [exact Hss|]. split; [exact Hcalls|exact Hpage].
Defined.

(** ** Script runs that build nothing *)

Section RunsMore.

Variable env : Env.

Lemma main_delete_fails w db msg :
  session_state w !! "vector_db" = Some (VChroma db) ->
  delete_error env (collection_name db) = Some msg ->
  main_delete env true w
  = (Raise (Exception msg),
     mkWorld (session_state w) (collections w) (page w)
             (calls w ++ [delete_collection_call (collection_name db)])).
Proof.
  intros Hdb Hfail. unfold main_delete, when. unfold bind at 1, ss_get at 1. rewrite Hdb.
  unfold delete_vector_db, delete_collection. run_script. rewrite Hfail. reflexivity.
Qed.

Lemma main_delete_absent w :
  session_state w !! "vector_db" = Some VNone ->
  main_delete env true w
  = (Ok tt, mkWorld (session_state w) (collections w)
                    (page w ++ [error "No vector database found to delete."]) (calls w)).
Proof.
  intros Hdb. unfold main_delete, when, bind, ss_get. rewrite Hdb. reflexivity.
Qed.

Lemma main_build_empty korpus model entries w :
  session_state w !! "vector_db" = Some VNone ->
  directory env (korpora_path +:+ korpus) = inr entries ->
  markdown_files entries = [] ->
  main_build env (Some korpus) model w
  = (Ok tt, mkWorld (session_state w) (collections w)
                    (page w ++ [error "No website data found."])
                    (calls w ++ [directory_load (korpora_path +:+ korpus) "./*.md"])).
Proof.
  intros Hdb Hdir Hfiles.
  unfold main_build. unfold bind at 1, ss_get at 1. rewrite Hdb.
  unfold is_none, when, local, ret at 1. unfold bind at 1. unfold bind at 1.
  rewrite load_documents_unfold, Hdir, Hfiles. reflexivity.
Qed.

(** X19: a reload that the store refuses.  When the session holds a handle
    and the store fails to drop its collection, the script run stops at that
    error without a rerun: the handle and the keys the reload would remove
    are still in the session state, the store is as it was, the one request
    sent is the drop, and the page shows the header only; neither the
    transcript is drawn nor a question typed with the click taken up. *)
Theorem script_run_reload_fails inp w db korpora models_info models msg :
  delete_button inp = true ->
  session_state w !! "vector_db" = Some (VChroma db) ->
  os_listdir env = inr korpora ->
  ollama_list env = inr models_info ->
  extract_model_names models_info = Ok models ->
  delete_error env (collection_name db) = Some msg ->
  let w' := script_run env inp w in
  fst (main env inp (new_page w)) = Raise (Exception msg)
  /\ session_state w' = initialised (session_state w)
  /\ (forall key, key ∈ reload_keys -> session_state w' !! key = session_state w !! key)
  /\ session_state w' !! "messages" = Some (default (VList []) (session_state w !! "messages"))
  /\ collections w' = collections w
  /\ calls w' = calls w ++ [delete_collection_call (collection_name db)]
  /\ page w' = [subheader "🧠 Ollama UB RAG playground"].
Proof.
  intros Hreload Hdb Hdir Hlist Hnames Hfail w'.
  assert (Hd1 : initialised (session_state w) !! "vector_db" = Some (VChroma db)).
  { destruct (initialised_lookup (session_state w)) as (_ & -> & _). by rewrite Hdb. }
  assert (Hmain : main env inp (new_page w)
                  = (Raise (Exception msg),
                     mkWorld (initialised (session_state w)) (collections w)
                             [subheader "🧠 Ollama UB RAG playground"]
                             (calls w ++ [delete_collection_call (collection_name db)]))).
  { rewrite main_unfold, Hdir, Hlist, Hnames.
    unfold bind at 1. rewrite (main_build_live _ _ _ _ db) by exact Hd1.
    rewrite Hreload. unfold bind at 1.
    by rewrite (main_delete_fails _ db msg). }
  subst w'. unfold script_run. rewrite Hmain. cbn [fst session_state collections page calls].
  split; [done|]. split; [done|].
  split.
  { intros key Hkey. unfold reload_keys in Hkey.
    apply elem_of_cons in Hkey as [->|Hkey];
      [|apply elem_of_cons in Hkey as [->|Hkey];
        [|apply elem_of_cons in Hkey as [->|Hkey]; [|by apply elem_of_nil in Hkey]]].
    - unfold initialised. by rewrite !with_default_lookup_ne.
    - unfold initialised. by rewrite !with_default_lookup_ne.
    - by rewrite Hd1, Hdb. }
  split; [by destruct (initialised_lookup (session_state w)) as (-> & _)|].
  done.
Qed.

(** X20: a corpus without markdown files.  On a session without index, when
    the corpus picked has no file for [load_documents], a script run with no
    question typed loads the directory, builds nothing and ends normally with
    the session still without index, whether an embedding model is installed
    or not; the page shows the header, the error "No website data found.",
    with the reload button pressed also "No vector database found to
    delete." (and no rerun follows), then the transcript and the warning that
    the chat cannot begin.  As nothing was stored, every such run loads the
    directory again. *)
Theorem script_run_without_markdown inp w l korpora models_info models korpus entries :
  chat_input inp = None ->
  no_index (session_state w) ->
  default (VList []) (session_state w !! "messages") = VList l ->
  os_listdir env = inr korpora ->
  ollama_list env = inr models_info ->
  extract_model_names models_info = Ok models ->
  selected korpora (korpus_select inp) = Some korpus ->
  directory env (korpora_path +:+ korpus) = inr entries ->
  markdown_files entries = [] ->
  let w' := script_run env inp w in
  fst (main env inp (new_page w)) = Ok tt
  /\ session_state w' = initialised (session_state w)
  /\ no_index (session_state w')
  /\ collections w' = collections w
  /\ calls w' = calls w ++ [directory_load (korpora_path +:+ korpus) "./*.md"]
  /\ page w'
     = [subheader "🧠 Ollama UB RAG playground"; error "No website data found."]
       ++ (if delete_button inp then [error "No vector database found to delete."] else [])
       ++ history_elements l
       ++ [warning "Upload a PDF file or use the sample PDF to begin chat..."]
  /\ calls (script_run env inp w')
     = calls w ++ [directory_load (korpora_path +:+ korpus) "./*.md";
                   directory_load (korpora_path +:+ korpus) "./*.md"].
Proof.
  intros Hprompt Hnone Hmsg Hdir Hlist Hnames Hkorpus Hentries Hfiles.
  assert (Hrun : forall v : World,
            no_index (session_state v) ->
            default (VList []) (session_state v !! "messages") = VList l ->
            main env inp (new_page v)
            = (Ok tt,
               mkWorld (initialised (session_state v)) (collections v)
                 ([subheader "🧠 Ollama UB RAG playground"; error "No website data found."]
                  ++ (if delete_button inp
                      then [error "No vector database found to delete."] else [])
                  ++ history_elements l
                  ++ [warning "Upload a PDF file or use the sample PDF to begin chat..."])
                 (calls v ++ [directory_load (korpora_path +:+ korpus) "./*.md"]))).
  { intros v Hv Hl.
    assert (Hd : initialised (session_state v) !! "vector_db" = Some VNone).
    { destruct (initialised_lookup (session_state v)) as (_ & -> & _).
      by destruct Hv as [-> | ->]. }
    assert (Hm : initialised (session_state v) !! "messages" = Some (VList l)).
    { destruct (initialised_lookup (session_state v)) as (-> & _). by rewrite Hl. }
    rewrite main_unfold, Hdir, Hlist, Hnames, Hkorpus.
    unfold bind at 1. rewrite (main_build_empty korpus _ entries) by done.
    unfold set_session_state, after_header, new_page.
    cbn [session_state collections page calls app].
    unfold bind at 1.
    destruct (delete_button inp).
    - rewrite main_delete_absent by exact Hd.
      cbn [session_state collections page calls].
      unfold bind at 1. rewrite (main_history_list _ l) by exact Hm.
      rewrite Hprompt, (main_chat_idle _ _ _ VNone) by exact Hd.
      cbn. by rewrite <- ?app_assoc.
    - unfold main_delete at 1, when, ret.
      unfold bind at 1. rewrite (main_history_list _ l) by exact Hm.
      rewrite Hprompt, (main_chat_idle _ _ _ VNone) by exact Hd.
      cbn. by rewrite <- ?app_assoc. }
  intros w'.
  assert (Hw' : w' = mkWorld (initialised (session_state w)) (collections w)
                 ([subheader "🧠 Ollama UB RAG playground"; error "No website data found."]
                  ++ (if delete_button inp
                      then [error "No vector database found to delete."] else [])
                  ++ history_elements l
                  ++ [warning "Upload a PDF file or use the sample PDF to begin chat..."])
                 (calls w ++ [directory_load (korpora_path +:+ korpus) "./*.md"])).
  { subst w'. unfold script_run. by rewrite (Hrun w Hnone Hmsg). }
  assert (Hd : initialised (session_state w) !! "vector_db" = Some VNone).
  { destruct (initialised_lookup (session_state w)) as (_ & -> & _).
    by destruct Hnone as [-> | ->]. }
  assert (Hm : initialised (session_state w) !! "messages" = Some (VList l)).
  { destruct (initialised_lookup (session_state w)) as (-> & _). by rewrite Hmsg. }
  split; [by rewrite (Hrun w Hnone Hmsg)|].
  rewrite Hw'. cbn [session_state collections page calls].
  split; [done|]. split; [by right|]. split; [done|]. split; [done|]. split; [done|].
  unfold script_run. rewrite Hrun.
  - cbn [calls]. by rewrite <- app_assoc.
  - by right.
  - cbn [session_state]. by rewrite Hm.
Qed.

End RunsMore.

Lemma script_run_reload_fails_witness :
  let env := Cases.store_down in
  let w := Scenario.asked Scenario.with_corpus in
  let w' := script_run env (Scenario.widgets true (Some Cases.question)) w in
  session_state w' = initialised (session_state w)
  /\ collections w' = collections w
  /\ page w' = [subheader "🧠 Ollama UB RAG playground"].
Proof.
  intros env w w'.
  destruct (script_run_reload_fails env (Scenario.widgets true (Some Cases.question)) w
              Scenario.myRAG ["ub"] Scenario.models ["llama3"; "nomic-embed-text"]
              "collection is locked")
    as (_ & Hss & _ & _ & Hcs & _ & Hpage).
  - reflexivity.
  - reflexivity.
  - reflexivity.
  - reflexivity.
  - reflexivity.
  - reflexivity.
  - split; [exact Hss|]. split; [exact Hcs|exact Hpage].
Defined.

Lemma script_run_without_markdown_witness :
  let env := Scenario.without_markdown in
  let w' := script_run env (Scenario.widgets true None) fresh_session in
  calls w' = [directory_load "/data/ub-llm/korpora/ub" "./*.md"]
  /\ page w'
     = [subheader "🧠 Ollama UB RAG playground"; error "No website data found.";
        error "No vector database found to delete.";
        warning "Upload a PDF file or use the sample PDF to begin chat..."].
Proof.
  intros env w'.
  destruct (script_run_without_markdown env (Scenario.widgets true None) fresh_session []
              ["ub"] Scenario.models ["llama3"; "nomic-embed-text"] "ub"
              [("notes.txt", "plain")])
    as (_ & _ & _ & _ & Hcalls & Hpage & _).
  - reflexivity.
  - by left.
  - reflexivity.
  - reflexivity.
  - reflexivity.
  - reflexivity.
  - reflexivity.
  - reflexivity.
  - reflexivity.
  - split; [exact Hcalls|exact Hpage].
Defined.
